(** * unesco_reader: the UIS bulk-data reader and the UIS API wrapper

    A shallow embedding of
    - [src/unesco_reader/uis.py]      (the pandas pipeline: [format_metadata],
                                       [map_dataset_name], [transform_data],
                                       and the first [UIS] class),
    - [src/src/unesco_reader/uis.py]  (the memoised [fetch_info] / [fetch_data]
                                       and the second [UIS] class),
    - [src/src/unesco_reader/api.py]  ([get_data] and [_make_request]),
    followed by the properties proved about them. *)

From Stdlib Require Import ZArith String Ascii.
From stdpp Require Import base option list sorting gmap strings pretty.

Local Open Scope string_scope.
Local Open Scope Z_scope.

(** ** Python values shared by the three files *)

Module Py.

(** The exception classes the three files raise or let through. *)
Inductive exn : Type :=
| ValueError (msg : string)
| KeyError (msg : string)
| IndexError (msg : string)
| TypeError (msg : string)
| AttributeError (msg : string)
| MergeError (duplicate_columns : list string)
| HTTPError (msg : string)
| JSONDecodeError (msg : string)
| TimeoutError (msg : string)
| RuntimeError (msg : string)
| ConnectionError (msg : string)
| TooManyRecordsError (msg : string).

Inductive result (A : Type) : Type :=
| Ok (a : A)
| Raise (e : exn).
Arguments Ok {A} a.
Arguments Raise {A} e.

(** Sequencing: an exception ends the computation. *)
#[global] Instance result_ret : MRet result := fun A a => Ok a.
#[global] Instance result_bind : MBind result := fun A B k r =>
  match r with
  | Ok a => k a
  | Raise e => Raise e
  end.

(** [sep.join(parts)] *)
Definition join (sep : string) (parts : list string) : string :=
  String.concat sep parts.

(** A dict as the list of its items; [d.get(key)]. *)
Fixpoint dict_get {K V} `{EqDecision K} (key : K) (d : list (K * V)) : option V :=
  match d with
  | [] => None
  | (k, v) :: rest => if decide (k = key) then Some v else dict_get key rest
  end.

(** [needle in haystack] on two [str]. *)
Fixpoint str_contains (needle haystack : string) : bool :=
  String.prefix needle haystack ||
  match haystack with
  | EmptyString => false
  | String _ rest => str_contains needle rest
  end.

End Py.

Export Py.

(** ** [src/unesco_reader/uis.py]: the pandas pipeline *)

Module UisFrame.

(** One line of [<code>_DATA_NATIONAL.csv].  [VALUE] is carried through the
    pipeline untouched and is kept as the text of its field. *)
Record value_row : Type := ValueRow {
  v_INDICATOR_ID : string;
  v_COUNTRY_ID : string;
  v_YEAR : Z;
  v_VALUE : string
}.

(** One line of [<code>_METADATA.csv] (the long form). *)
Record metadata_row : Type := MetadataRow {
  m_INDICATOR_ID : string;
  m_COUNTRY_ID : string;
  m_YEAR : Z;
  m_TYPE : string;
  m_METADATA : string
}.

(** The members of an archive, by the shape of their columns. *)
Inductive csv : Type :=
| DataCsv (rows : list value_row)
| LookupCsv (rows : list (string * string))
| MetadataCsv (rows : list metadata_row).

Abbreviation ZipFile := (gmap string csv).

(** [['INDICATOR_ID', 'COUNTRY_ID', 'YEAR']] and the same with ['TYPE']. *)
Abbreviation key3 := (string * string * Z)%type.
Abbreviation key4 := (string * string * Z * string)%type.

Definition group_key (r : metadata_row) : key4 :=
  (m_INDICATOR_ID r, m_COUNTRY_ID r, m_YEAR r, m_TYPE r).

Definition join_key (r : value_row) : key3 :=
  (v_INDICATOR_ID r, v_COUNTRY_ID r, v_YEAR r).

(** Tuples are ordered column by column, as pandas orders group keys and
    index entries. *)
Definition lex (c1 c2 : comparison) : comparison :=
  match c1 with
  | Eq => c2
  | _ => c1
  end.

Definition key3_compare (a b : key3) : comparison :=
  lex (String.compare a.1.1 b.1.1)
    (lex (String.compare a.1.2 b.1.2) (Z.compare a.2 b.2)).

Definition key4_compare (a b : key4) : comparison :=
  lex (key3_compare a.1 b.1) (String.compare a.2 b.2).

Definition not_gt (c : comparison) : bool :=
  match c with
  | Gt => false
  | _ => true
  end.

Definition key3_le (a b : key3) : Prop := not_gt (key3_compare a b).
Definition key4_le (a b : key4) : Prop := not_gt (key4_compare a b).

#[global] Instance key3_le_dec : RelDecision key3_le.
Proof. intros a b. unfold key3_le. apply _. Defined.
#[global] Instance key4_le_dec : RelDecision key4_le.
Proof. intros a b. unfold key4_le. apply _. Defined.

(** The rows of one group, in the order they have in the frame. *)
Definition group_rows (rows : list metadata_row) (k : key4) : list metadata_row :=
  filter (fun r => group_key r = k) rows.

(** [df.groupby(by=[...4 columns...], as_index=False)['METADATA']
       .apply(' / '.join)]:
    one line per distinct key, keys in sorted order ([sort=True] is the
    default), the texts of a group joined in the order of the frame.  The key
    columns are taken as filled in. *)
Definition group_lines (rows : list metadata_row) : list (key4 * string) :=
  (fun k => (k, join " / " (m_METADATA <$> group_rows rows k)))
    <$> merge_sort key4_le (remove_dups (group_key <$> rows)).

(** What [.apply] hands back: a frame with the key columns and [METADATA], or,
    when there is no group at all, a [Series] without entries. *)
Inductive applied : Type :=
| AppliedFrame (lines : list (key4 * string))
| AppliedSeries.

Definition groupby_join (rows : list metadata_row) : applied :=
  match rows with
  | [] => AppliedSeries
  | _ :: _ => AppliedFrame (group_lines rows)
  end.

(** The wide form: the annotation columns, and per index entry one cell per
    column ([None] is NaN). *)
Record wide_table : Type := WideTable {
  wt_columns : list string;
  wt_rows : list (key3 * list (option string))
}.

(** [.pivot(index=[...3 columns...], columns='TYPE', values='METADATA')]: the
    index entries and the column names in sorted order, a cell per pair. *)
Definition pivoted (g : list (key4 * string)) : wide_table :=
  let index := merge_sort key3_le (remove_dups (fst <$> g.*1)) in
  let columns := merge_sort String.le (remove_dups (snd <$> g.*1)) in
  let cells : gmap key4 string := list_to_map g in
  {| wt_columns := columns;
     wt_rows := (fun i => (i, (fun c => cells !! (i, c)) <$> columns)) <$> index |}.

(** A [Series] has no [pivot]; on a frame pandas refuses to reshape when an
    (index, column) pair occurs twice. *)
Definition pivot (g : applied) : result wide_table :=
  match g with
  | AppliedSeries => Raise (AttributeError "'Series' object has no attribute 'pivot'")
  | AppliedFrame lines =>
      if decide (NoDup (lines.*1)) then Ok (pivoted lines)
      else Raise (ValueError "Index contains duplicate entries, cannot reshape")
  end.

Definition index_names : list string := ["INDICATOR_ID"; "COUNTRY_ID"; "YEAR"].

(** [.reset_index()] turns the index levels into columns, the last level
    first, and refuses a level whose name a column already has; lines and
    cells stay as they are. *)
Definition reset_index (t : wide_table) : result wide_table :=
  match list_find (fun level => level ∈ wt_columns t) (reverse index_names) with
  | Some (_, level) => Raise (ValueError ("cannot insert " ++ level ++ ", already exists"))
  | None => Ok t
  end.

(** [format_metadata]; [.rename_axis(None, axis=1)] drops the name of the
    column axis and changes nothing else. *)
Definition format_metadata (metadata_df : list metadata_row) : result wide_table :=
  t ← pivot (groupby_join metadata_df);
  reset_index t.

(** The cell of the wide table at index entry [i] and column [c]. *)
Definition wide_cell (t : wide_table) (i : key3) (c : string) : option string :=
  '(_, cells) ← list_find (fun r => r.1 = i) (wt_rows t) ≫= (Some ∘ snd);
  '(n, _) ← list_find (fun c' => c' = c) (wt_columns t);
  mjoin (cells !! n).

(** Modelled from the spec: [common.read_csv(folder, name)], which is not
    among the sources.  It opens the named member of the archive and parses
    it; a member that is not in the archive is an error. *)
Definition read_csv (folder : ZipFile) (name : string) : result csv :=
  match folder !! name with
  | Some member => Ok member
  | None => Raise (KeyError ("There is no item named " ++ name ++ " in the archive"))
  end.

(** Modelled from the spec: [common.mapping_dict(df)], which is not among the
    sources.  It turns a two-column lookup table into a dict from code to
    name; of two lines with the same code the first one counts. *)
Definition mapping_dict (lookup : list (string * string)) : gmap string string :=
  list_to_map lookup.

(** Column access by name on a parsed member. *)
Definition data_columns (member : csv) : result (list value_row) :=
  match member with
  | DataCsv rows => Ok rows
  | _ => Raise (KeyError "COUNTRY_ID")
  end.

Definition lookup_columns (member : csv) : result (list (string * string)) :=
  match member with
  | LookupCsv rows => Ok rows
  | _ => Raise (KeyError "lookup columns")
  end.

Definition metadata_columns (member : csv) : result (list metadata_row) :=
  match member with
  | MetadataCsv rows => Ok rows
  | _ => Raise (KeyError "INDICATOR_ID")
  end.

(** A line of the merged frame: the value columns, the two derived name
    columns, then the annotation cells. *)
Record merged_row : Type := MergedRow {
  mr_value : value_row;
  mr_COUNTRY_NAME : option string;
  mr_INDICATOR_NAME : option string;
  mr_annotations : list (option string)
}.

(** The merged frame: the names of the six columns that come from the values
    frame, the names of the annotation columns, and the lines. *)
Record merged_frame : Type := MergedFrame {
  mf_value_columns : list string;
  mf_columns : list string;
  mf_rows : list merged_row
}.

(** The columns of the values frame after [.assign]. *)
Definition left_columns : list string :=
  ["INDICATOR_ID"; "COUNTRY_ID"; "YEAR"; "VALUE"; "COUNTRY_NAME"; "INDICATOR_NAME"].

(** [.assign(COUNTRY_NAME=..., INDICATOR_NAME=...)]: [Series.map(dict)]
    gives NaN where the dict has no entry. *)
Definition assign_names (countries labels : gmap string string)
    (r : value_row) : value_row * option string * option string :=
  (r, countries !! v_COUNTRY_ID r, labels !! v_INDICATOR_ID r).

(** [.merge(metadata, on=[...3 columns...], how='left')]: every left line, in
    order, once per right line with the same key, and once with NaN cells
    when there is none. *)
Definition merge_left (left : list (value_row * option string * option string))
    (right : wide_table) : list merged_row :=
  '(r, cn, iname) ← left;
  match filter (fun m => m.1 = join_key r) (wt_rows right) with
  | [] => [MergedRow r cn iname (replicate (length (wt_columns right)) None)]
  | ms => (fun m => MergedRow r cn iname m.2) <$> ms
  end.

(** A column name that both frames have, the join keys apart, gets the suffix
    of its side. *)
Definition suffixed (to_rename : list string) (suffix : string) (x : string) : string :=
  if decide (x ∈ to_rename) then x ++ suffix else x.

(** [labels[labels.duplicated()]]: the names at the places where a name
    comes again. *)
Fixpoint duplicated_after (seen labels : list string) : list string :=
  match labels with
  | [] => []
  | x :: rest =>
      if decide (x ∈ seen) then x :: duplicated_after seen rest
      else duplicated_after (x :: seen) rest
  end.

Definition duplicated (labels : list string) : list string := duplicated_after [] labels.

(** [left.merge(right, on=[...3 columns...], how='left')] with the default
    suffixes [_x] and [_y]: pandas refuses suffixes that make two columns of
    one side alike, and names the set of these columns in its error. *)
Definition merge (left : list (value_row * option string * option string))
    (right : wide_table) : result merged_frame :=
  let to_rename := filter (fun x => x ∈ wt_columns right) left_columns in
  let llabels := suffixed to_rename "_x" <$> left_columns in
  let rlabels := suffixed to_rename "_y" <$> wt_columns right in
  match (duplicated llabels ++ duplicated rlabels)%list with
  | [] => Ok {| mf_value_columns := llabels;
                mf_columns := rlabels;
                mf_rows := merge_left left right |}
  | dups => Raise (MergeError dups)
  end.

Definition transform_data (folder : ZipFile) (dataset_code : string)
    : result merged_frame :=
  df ← read_csv folder (dataset_code ++ "_DATA_NATIONAL.csv");
  labels ← read_csv folder (dataset_code ++ "_LABEL.csv");
  countries ← read_csv folder (dataset_code ++ "_COUNTRY.csv");
  metadata_csv ← read_csv folder (dataset_code ++ "_METADATA.csv");
  metadata_df ← metadata_columns metadata_csv;
  metadata ← format_metadata metadata_df;
  df ← data_columns df;
  countries ← lookup_columns countries;
  labels ← lookup_columns labels;
  merge (assign_names (mapping_dict countries) (mapping_dict labels) <$> df) metadata.

(** A line of [uis_datasets.csv] with the [link] column that
    [available_datasets] adds. *)
Record dataset : Type := Dataset {
  dataset_name : string;
  dataset_code : string;
  dataset_category : string;
  link : string
}.

(** [array[0]] *)
Definition values_0 {A} (values : list A) : result A :=
  match values with
  | x :: _ => Ok x
  | [] => Raise (IndexError "index 0 is out of bounds for axis 0 with size 0")
  end.

(** The attributes of a [UIS] object. *)
Record UIS : Type := MkUIS {
  __dataset_code : string;
  __dataset_name : string;
  __url : string;
  __dataset_category : string;
  __folder : option ZipFile;
  __data : option merged_frame
}.

Section Catalogue.

(** [DATASETS = available_datasets()], the catalogue read from a local
    file when the module is loaded, and [common.unzip_folder(url)], which
    downloads an archive; neither is among the sources. *)
Variable DATASETS : list dataset.
Variable unzip_folder : string → result ZipFile.

Definition map_dataset_name (name : string) : result string :=
  if decide (name ∈ dataset_name <$> DATASETS) then
    values_0 (dataset_code <$> filter (fun d => dataset_name d = name) DATASETS)
  else if decide (name ∈ dataset_code <$> DATASETS) then Ok name
  else Raise (ValueError ("Dataset not found: " ++ name)).

Definition loc {A} (code : string) (column : dataset → A) : list A :=
  column <$> filter (fun d => dataset_code d = code) DATASETS.

(** The methods thread the list of downloaded locations; [__init__] has
    nothing to add to it. *)
Definition UIS_init (dataset : string) (downloads : list string)
    : result UIS * list string :=
  (code ← map_dataset_name dataset;
   name ← values_0 (loc code dataset_name);
   url ← values_0 (loc code link);
   category ← values_0 (loc code dataset_category);
   Ok (MkUIS code name url category None None),
   downloads).

Definition load_data (self : UIS) (downloads : list string)
    : result () * UIS * list string :=
  let downloads := (downloads ++ [__url self])%list in
  match unzip_folder (__url self) with
  | Raise e => (Raise e, self, downloads)
  | Ok folder =>
      let self1 := MkUIS (__dataset_code self) (__dataset_name self) (__url self)
                         (__dataset_category self) (Some folder) (__data self) in
      match transform_data folder (__dataset_code self1) with
      | Raise e => (Raise e, self1, downloads)
      | Ok data =>
          (Ok (),
           MkUIS (__dataset_code self1) (__dataset_name self1) (__url self1)
                 (__dataset_category self1) (__folder self1) (Some data),
           downloads)
      end
  end.

Definition get_data (self : UIS) (downloads : list string)
    : option merged_frame * list string :=
  (__data self, downloads).

End Catalogue.

(** A line of [uis_datasets.csv], the catalogue file. *)
Record catalogue_line : Type := CatalogueLine {
  cl_dataset_name : string;
  cl_dataset_code : string;
  cl_dataset_category : string
}.

(** [available_datasets]: the catalogue with the [link] column added;
    [PATHS.BASE_URL] and the parsed file are not among the sources. *)
Definition available_datasets (BASE_URL : string) (table : list catalogue_line)
    : list dataset :=
  (fun x => Dataset (cl_dataset_name x) (cl_dataset_code x) (cl_dataset_category x)
                    (BASE_URL ++ cl_dataset_code x ++ ".zip")) <$> table.

End UisFrame.

(** ** [functools.lru_cache]: the memo behind [fetch_info] and [fetch_data] *)

Module Lru.

(** [@lru_cache] without arguments bounds the memo at 128 entries. *)
Definition maxsize : nat := 128.

Section Memo.
Context {K V : Type} `{EqDecision K}.

(** The memo is a dict whose items are kept least recently used first.  A hit
    moves the entry to the most recently used end. *)
Definition touch (key : K) (v : V) (cache : list (K * V)) : list (K * V) :=
  filter (fun e => e.1 ≠ key) cache ++ [(key, v)].

(** Storing the result of a miss: nothing when the key got in meanwhile,
    the least recently used entry makes room when the memo is full. *)
Definition put (key : K) (v : V) (cache : list (K * V)) : list (K * V) :=
  match dict_get key cache with
  | Some _ => cache
  | None =>
      if decide (maxsize ≤ length cache)%nat
      then tail cache ++ [(key, v)]
      else cache ++ [(key, v)]
  end.
End Memo.

End Lru.

(** ** [src/src/unesco_reader/uis.py]: memoised fetching and the [UIS] class *)

Module Uis.

(** One entry of the listing scraped from the UIS website: a dict with the
    keys [name], [theme], [latest_update] and [href]. *)
Record dataset_info : Type := DatasetInfo {
  name : string;
  theme : string;
  latest_update : string;
  href : string
}.

#[global] Instance dataset_info_eq_dec : EqDecision dataset_info.
Proof. solve_decision. Defined.

(** A line of [country_data]; [metadata_columns] are the columns beyond the
    six that [get_country_data] keeps by default. *)
Record country_row : Type := CountryRow {
  country_id : string;
  country_name : string;
  indicator_id : string;
  indicator_label : string;
  year : Z;
  value : string;
  metadata_columns : list (string * string)
}.

(** A line of [region_concordance]. *)
Record concordance_row : Type := ConcordanceRow {
  region_id : string;
  rc_country_id : string;
  rc_country_name : string
}.

(** The attributes of a [UISData] that the methods below read; a table the
    archive does not have is [None]. *)
Record tables : Type := Tables {
  country_data : list country_row;
  region_concordance : option (list concordance_row);
  readme : option string
}.

(** A [UISData] object: its tables and the identity it got when it was
    built. *)
Record UISData : Type := MkUISData {
  object_id : nat;
  data_tables : tables
}.

(** How a call passes [refresh]; [lru_cache] keys on the call as written. *)
Inductive refresh_arg : Type :=
| Omitted
| Positional (b : bool)
| Keyword (b : bool).

#[global] Instance refresh_arg_eq_dec : EqDecision refresh_arg.
Proof. solve_decision. Defined.

Definition refresh_of (a : refresh_arg) : bool :=
  match a with
  | Omitted => false
  | Positional b | Keyword b => b
  end.

(** Network traffic, in the order it happens. *)
Inductive request : Type :=
| GetLinks
| GetZipfile (url : string).

#[global] Instance request_eq_dec : EqDecision request.
Proof. solve_decision. Defined.

(** The two memos, the traffic so far, the next object identity and what
    was printed. *)
Record state : Type := State {
  info_cache : list (refresh_arg * list dataset_info);
  data_cache : list (string * refresh_arg * UISData);
  network : list request;
  next_id : nat;
  stdout : list string
}.

Definition set_info_cache (c : list (refresh_arg * list dataset_info)) (st : state) : state :=
  State c (data_cache st) (network st) (next_id st) (stdout st).
Definition set_data_cache (c : list (string * refresh_arg * UISData)) (st : state) : state :=
  State (info_cache st) c (network st) (next_id st) (stdout st).

(** A computation that reads and changes the state and may raise; what it
    changed before raising stays changed. *)
Definition M (A : Type) : Type := state → result A * state.

#[global] Instance M_ret : MRet M := fun A a st => (Ok a, st).
#[global] Instance M_bind : MBind M := fun A B k m st =>
  match m st with
  | (Ok a, st') => k a st'
  | (Raise e, st') => (Raise e, st')
  end.

Definition raise {A} (e : exn) : M A := fun st => (Raise e, st).

(** The wrapper [lru_cache] puts around a function: a stored key is answered
    from the memo and the function does not run. *)
Definition lru_cache {K V} `{EqDecision K}
    (cache : state → list (K * V)) (set_cache : list (K * V) → state → state)
    (key : K) (user_function : M V) : M V := fun st =>
  match dict_get key (cache st) with
  | Some v => (Ok v, set_cache (Lru.touch key v (cache st)) st)
  | None =>
      match user_function st with
      | (Ok v, st') => (Ok v, set_cache (Lru.put key v (cache st')) st')
      | (Raise e, st') => (Raise e, st')
      end
  end.

Definition CACHING : bool := true.

Section World.

(** [UISInfoScraper.get_links()] and [get_zipfile(href)] followed by
    [UISData(folder)] are not among the sources; the website is a
    parameter: what it answers to the request made after [n] earlier
    ones. *)
Variable get_links : nat → result (list dataset_info).
Variable get_zipfile : nat → string → result tables.

Definition scrape : M (list dataset_info) := fun st =>
  (get_links (length (network st)),
   State (info_cache st) (data_cache st) (network st ++ [GetLinks])
         (next_id st) (stdout st)).

Definition download (url : string) : M UISData := fun st =>
  let st' := State (info_cache st) (data_cache st) (network st ++ [GetZipfile url])
                   (next_id st) (stdout st) in
  match get_zipfile (length (network st)) url with
  | Ok t => (Ok (MkUISData (next_id st) t),
             State (info_cache st') (data_cache st') (network st')
                   (S (next_id st')) (stdout st'))
  | Raise e => (Raise e, st')
  end.

Definition fetch_info_body (refresh : bool) : M (list dataset_info) :=
  (if refresh || negb CACHING
   then fun st => (Ok (), set_info_cache [] st)
   else mret ()) ≫= fun _ => scrape.

Definition fetch_info (refresh : refresh_arg) : M (list dataset_info) :=
  lru_cache info_cache set_info_cache refresh (fetch_info_body (refresh_of refresh)).

Definition not_found_message (dataset_name : string) (datasets : list dataset_info) : string :=
  "Dataset not found: " ++ dataset_name
    ++ ". " ++ String "010" "Please select from the following datasets: "
    ++ join ", " (name <$> datasets).

Fixpoint find_dataset (dataset_name : string) (datasets : list dataset_info)
    : option dataset_info :=
  match datasets with
  | [] => None
  | dataset :: rest =>
      if decide (dataset_name = name dataset) then Some dataset
      else find_dataset dataset_name rest
  end.

Definition fetch_dataset_info (dataset_name : string) (refresh : bool) : M dataset_info :=
  datasets ← fetch_info (Positional refresh);
  match find_dataset dataset_name datasets with
  | Some dataset => mret dataset
  | None => raise (ValueError (not_found_message dataset_name datasets))
  end.

Definition fetch_data_body (url : string) (refresh : bool) : M UISData :=
  (if refresh || negb CACHING
   then fun st => (Ok (), set_data_cache [] st)
   else mret ()) ≫= fun _ => download url.

Definition fetch_data (url : string) (refresh : refresh_arg) : M UISData :=
  lru_cache data_cache set_data_cache (url, refresh) (fetch_data_body url (refresh_of refresh)).

(** The attributes of a [UIS] object. *)
Record UIS : Type := MkUIS {
  _dataset_info : dataset_info;
  _data : UISData
}.

Definition UIS_init (dataset_name : string) : M UIS :=
  info ← fetch_dataset_info dataset_name false;
  data ← fetch_data (href info) Omitted;
  mret (MkUIS info data).

(** [refresh] assigns to the attributes of [self] one after the other, so
    the object is threaded through like the state. *)
Definition refresh (self : UIS) (st : state) : result () * UIS * state :=
  match fetch_dataset_info (name (_dataset_info self)) true st with
  | (Raise e, st1) => (Raise e, self, st1)
  | (Ok info, st1) =>
      let self1 := MkUIS info (_data self) in
      match fetch_data (href (_dataset_info self1)) (Keyword true) st1 with
      | (Raise e, st2) => (Raise e, self1, st2)
      | (Ok data, st2) =>
          (Ok (), MkUIS (_dataset_info self1) data,
           State (info_cache st2) (data_cache st2) (network st2) (next_id st2)
                 (stdout st2 ++ ["Data refreshed."]))
      end
  end.

End World.

Definition default_columns (r : country_row) : country_row :=
  CountryRow (country_id r) (country_name r) (indicator_id r) (indicator_label r)
             (year r) (value r) [].

Definition get_country_data (self : UIS) (include_metadata : bool)
    (region : option string) : result (list country_row) :=
  let df := country_data (data_tables (_data self)) in
  let df := if negb include_metadata then default_columns <$> df else df in
  match region with
  | None => Ok df
  | Some region =>
      match region_concordance (data_tables (_data self)) with
      | None => Raise (ValueError "Regional data is not available for this dataset.")
      | Some concordance =>
          if decide (region ∈ remove_dups (region_id <$> concordance)) then
            let countries_in_region :=
              rc_country_id <$> filter (fun c => region_id c = region) concordance in
            Ok (filter (fun r => country_id r ∈ countries_in_region) df)
          else Raise (ValueError ("Region ID not found: " ++ region))
      end
  end.

Definition get_regions (self : UIS) : result (list concordance_row) :=
  match region_concordance (data_tables (_data self)) with
  | None => Raise (ValueError "Information about regions is not available for this dataset.")
  | Some concordance => Ok concordance
  end.

End Uis.

(** ** [src/src/unesco_reader/api.py]: the wrapper of the UIS API *)

Module Api.

Definition API_URL : string := "https://api.uis.unesco.org".

(** [str | list[str]] *)
Inductive str_or_list : Type :=
| Str (s : string)
| StrList (l : list string).

(** The value of a query parameter. *)
Inductive param : Type :=
| PList (l : list string)
| PInt (n : Z)
| PStr (s : string).

(** The body of an answer, as [response.json()] sees it: a JSON object by its
    members, the list of published versions by their [version] field, or a
    body that is not JSON, with the text of the decoding error. *)
Inductive json : Type :=
| JDocument (members : list (string * string))
| JVersions (versions : list string)
| NotJson (e : string).

Record response : Type := Response {
  status_code : Z;
  reason : string;
  response_url : string;
  body : json
}.

(** What [requests.get] does: it times out, fails otherwise, or answers. *)
Inductive outcome : Type :=
| Timeout (e : string)
| RequestException (e : string)
| Answer (r : response).

Record http_request : Type := HttpRequest {
  url : string;
  params : option (list (string * param))
}.

(** The requests sent and the warnings logged so far. *)
Record state : Type := State {
  sent : list http_request;
  warnings : list string
}.

Definition M (A : Type) : Type := state → result A * state.

#[global] Instance M_ret : MRet M := fun A a st => (Ok a, st).
#[global] Instance M_bind : MBind M := fun A B k m st =>
  match m st with
  | (Ok a, st') => k a st'
  | (Raise e, st') => (Raise e, st')
  end.

Definition raise {A} (e : exn) : M A := fun st => (Raise e, st).
Definition lift {A} (r : result A) : M A := fun st => (r, st).
Definition logger_warning (msg : string) : M () := fun st =>
  (Ok (), State (sent st) (warnings st ++ [msg])).

Definition _check_valid_geo_unit_type (geo_unit_type : option string) : result () :=
  match geo_unit_type with
  | Some t =>
      if decide (t ∈ ["NATIONAL"; "REGIONAL"]) then Ok ()
      else Raise (ValueError "geo_unit_type must be either NATIONAL or REGIONAL")
  | None => Ok ()
  end.

(** [response.json()] *)
Definition response_json (r : response) : result json :=
  match body r with
  | NotJson e => Raise (JSONDecodeError e)
  | j => Ok j
  end.

(** [.get("message")] on what [response.json()] returned. *)
Definition get_message (j : json) : result (option string) :=
  match j with
  | JDocument members => Ok (dict_get "message" members)
  | JVersions _ => Raise (AttributeError "'list' object has no attribute 'get'")
  | NotJson e => Raise (JSONDecodeError e)
  end.

Definition _check_for_too_many_records (r : response) : result () :=
  _ ← (if decide (status_code r = 400) then
         j ← response_json r;
         error_message ← get_message j;
         match error_message with
         | Some error_message =>
             if str_contains "Too much data requested" error_message
             then Raise (TooManyRecordsError error_message)
             else Ok ()
         | None => Raise (TypeError "argument of type 'NoneType' is not iterable")
         end
       else Ok ());
  if decide (status_code r = 414) then
    Raise (TooManyRecordsError
             "Too many parameters passed to the API. Please reduce the amount of parameters passed to the API")
  else Ok ().

(** [response.raise_for_status()] *)
Definition raise_for_status (r : response) : result () :=
  if decide (400 ≤ status_code r < 500) then
    Raise (HTTPError (pretty (status_code r) ++ " Client Error: " ++ reason r
                      ++ " for url: " ++ response_url r))
  else if decide (500 ≤ status_code r < 600) then
    Raise (HTTPError (pretty (status_code r) ++ " Server Error: " ++ reason r
                      ++ " for url: " ++ response_url r))
  else Ok ().

(** The [except] clauses of [_make_request] for what is raised once the
    answer is there: an [HTTPError], and a decoding error, which is a
    [RequestException]; anything else goes through. *)
Definition except_clauses (e : exn) : exn :=
  match e with
  | HTTPError msg => RuntimeError ("HTTP error occurred: " ++ msg)
  | JSONDecodeError msg => ConnectionError ("Could not connect to API. Error: " ++ msg)
  | e => e
  end.

(** [[v["version"] for v in versions]]: over a list of versions their
    fields, over an object its keys, which are strings. *)
Definition version_fields (versions : json) : result (list string) :=
  match versions with
  | JVersions versions => Ok versions
  | JDocument [] => Ok []
  | JDocument (_ :: _) => Raise (TypeError "string indices must be integers")
  | NotJson e => Raise (JSONDecodeError e)
  end.

Definition _convert_bool_to_string (value : option bool) : option string :=
  match value with
  | None => None
  | Some true => Some "true"
  | Some false => Some "false"
  end.

(** [{k: v for k, v in sorted(params.items()) if v is not None}] *)
Definition key_le (a b : string * option param) : Prop := String.le a.1 b.1.
#[global] Instance key_le_dec : RelDecision key_le.
Proof. intros a b. unfold key_le. apply _. Defined.

Definition present (params : list (string * option param)) : list (string * param) :=
  omap (fun kv => (fun v => (kv.1, v)) <$> kv.2) (merge_sort key_le params).

Definition int_param (n : option Z) : option param := PInt <$> n.
Definition str_param (s : option string) : option param := PStr <$> s.
Definition list_param (x : option str_or_list) : option param :=
  (fun x => match x with Str s => PList [s] | StrList l => PList l end) <$> x.

(** Truth value of an optional argument in a condition. *)
Definition truthy_int (n : option Z) : bool :=
  match n with
  | Some n => negb (n =? 0)
  | None => false
  end.

Definition truthy_str (s : option string) : bool :=
  match s with
  | Some s => negb (String.eqb s "")
  | None => false
  end.

Definition truthy_str_or_list (x : option str_or_list) : bool :=
  match x with
  | Some (Str s) => negb (String.eqb s "")
  | Some (StrList l) => negb (bool_decide (l = []))
  | None => false
  end.

Definition gt (a b : option Z) : bool :=
  match a, b with
  | Some a, Some b => a >? b
  | _, _ => false
  end.

Definition show_int (n : option Z) : string :=
  match n with
  | Some n => pretty n
  | None => "None"
  end.

Section Server.

(** The server is a parameter: what happens to the request sent after
    [n] earlier ones. *)
Variable server : nat → http_request → outcome.

(** The [try] block of [_make_request]. *)
Definition send (endpoint : string) (params : option (list (string * param))) : M json :=
  fun st =>
    let request := HttpRequest (API_URL ++ endpoint) params in
    let st' := State (sent st ++ [request]) (warnings st) in
    match server (length (sent st)) request with
    | Timeout e => (Raise (TimeoutError ("Request timed out. Error: " ++ e)), st')
    | RequestException e =>
        (Raise (ConnectionError ("Could not connect to API. Error: " ++ e)), st')
    | Answer r =>
        match (_ ← _check_for_too_many_records r;
               _ ← raise_for_status r;
               response_json r) with
        | Ok j => (Ok j, st')
        | Raise e => (Raise (except_clauses e), st')
        end
    end.

(** [get_versions()] is [_make_request] without parameters, which goes
    straight to the [try] block. *)
Definition get_versions : M json := send "/api/public/versions" None.

Definition _check_valid_version (version : option string) : M () :=
  match version with
  | Some version =>
      versions ← get_versions;
      fields ← lift (version_fields versions);
      if decide (version ∈ fields) then mret ()
      else raise (ValueError ("Invalid data version: " ++ version))
  | None => mret ()
  end.

Definition _make_request (endpoint : string)
    (params : option (list (string * option param))) : M json :=
  match params with
  | Some params =>
      let params := present params in
      _ ← (match dict_get "version" params with
           | Some (PStr version) => _check_valid_version (Some version)
           | Some _ => raise (ValueError "Data version must be a string")
           | None => mret ()
           end);
      send endpoint (Some params)
  | None => send endpoint None
  end.

Definition get_data (indicator geo_unit : option str_or_list) (start end_ : option Z)
    (indicator_metadata footnotes : bool) (geo_unit_type version : option string)
    : M json :=
  let end_point := "/api/public/data/indicators" in
  if bool_decide (indicator = None) && bool_decide (geo_unit = None) then
    raise (ValueError "At least one indicator or one geo_unit must be provided")
  else
    _ ← (if truthy_str_or_list geo_unit && truthy_str geo_unit_type
         then logger_warning
                "Both geo_unit and geo_unit_type are specified. geo_unit_type will be ignored"
         else mret ());
    _ ← lift (_check_valid_geo_unit_type geo_unit_type);
    if truthy_int start && truthy_int end_ && gt start end_ then
      _ ← logger_warning ("Start year " ++ show_int start
                          ++ " is greater than end year " ++ show_int end_);
      raise (ValueError "Start year cannot be greater than end year")
    else
      _make_request end_point
        (Some [("indicator", list_param indicator);
               ("geoUnit", list_param geo_unit);
               ("start", int_param start);
               ("end", int_param end_);
               ("indicatorMetadata", str_param (_convert_bool_to_string (Some indicator_metadata)));
               ("footnotes", str_param (_convert_bool_to_string (Some footnotes)));
               ("geoUnitType", str_param geo_unit_type);
               ("version", str_param version)]).

Definition get_geo_units (version : option string) : M json :=
  _make_request "/api/public/definitions/geounits" (Some [("version", str_param version)]).

Definition get_indicators (disaggregations glossary_terms : bool) (version : option string)
    : M json :=
  _make_request "/api/public/definitions/indicators"
    (Some [("disaggregations", str_param (_convert_bool_to_string (Some disaggregations)));
           ("glossaryTerms", str_param (_convert_bool_to_string (Some glossary_terms)));
           ("version", str_param version)]).

Definition get_default_version : M json :=
  _make_request "/api/public/versions/default" None.

End Server.

(** The query parameters of [get_data], as a dict. *)
Definition get_data_params (indicator geo_unit : option str_or_list) (start end_ : option Z)
    (indicator_metadata footnotes : bool) (geo_unit_type version : option string)
    : list (string * option param) :=
  [("indicator", list_param indicator);
   ("geoUnit", list_param geo_unit);
   ("start", int_param start);
   ("end", int_param end_);
   ("indicatorMetadata", str_param (_convert_bool_to_string (Some indicator_metadata)));
   ("footnotes", str_param (_convert_bool_to_string (Some footnotes)));
   ("geoUnitType", str_param geo_unit_type);
   ("version", str_param version)].

End Api.

(** ** Worked examples *)

Module Examples.

(** The archive of the worked example: one observation with a label, a country
    name and two notes, and one observation with none of them. *)
Definition example_metadata : list UisFrame.metadata_row :=
  [UisFrame.MetadataRow "IND1" "FRA" 2020 "NOTE" "est.";
   UisFrame.MetadataRow "IND1" "FRA" 2020 "NOTE" "revised"].

Definition example_values : list UisFrame.value_row :=
  [UisFrame.ValueRow "IND1" "FRA" 2020 "5"; UisFrame.ValueRow "IND2" "DEU" 2019 "7"].

Definition example_folder : UisFrame.ZipFile :=
  list_to_map
    [("EDU_DATA_NATIONAL.csv", UisFrame.DataCsv example_values);
     ("EDU_LABEL.csv", UisFrame.LookupCsv [("IND1", "Literacy")]);
     ("EDU_COUNTRY.csv", UisFrame.LookupCsv [("FRA", "France")]);
     ("EDU_METADATA.csv", UisFrame.MetadataCsv example_metadata)].

(** What [format_metadata] and [transform_data] give on the worked example. *)
Definition example_wide_table : UisFrame.wide_table :=
  UisFrame.WideTable ["NOTE"] [(("IND1", "FRA", 2020), [Some "est. / revised"])].

Definition example_merged_frame : UisFrame.merged_frame :=
  UisFrame.MergedFrame
    ["INDICATOR_ID"; "COUNTRY_ID"; "YEAR"; "VALUE"; "COUNTRY_NAME"; "INDICATOR_NAME"]
    ["NOTE"]
    [UisFrame.MergedRow (UisFrame.ValueRow "IND1" "FRA" 2020 "5")
       (Some "France") (Some "Literacy") [Some "est. / revised"];
     UisFrame.MergedRow (UisFrame.ValueRow "IND2" "DEU" 2019 "7") None None [None]].


Definition example_catalogue : list UisFrame.dataset :=
  [UisFrame.Dataset "Education" "EDU" "education" "https://x/EDU.zip"].

(** The listing of the website before and after an update of the dataset. *)
Definition education_2023 : Uis.dataset_info :=
  Uis.DatasetInfo "Education" "Education" "2023-09" "https://x/EDU.zip".
Definition education_2024 : Uis.dataset_info :=
  Uis.DatasetInfo "Education" "Education" "2024-02" "https://x/EDU.zip".

Definition example_tables : Uis.tables :=
  Uis.Tables
    [Uis.CountryRow "FRA" "France" "IND1" "Literacy" 2020 "5" [("NOTE", "est.")]]
    (Some [Uis.ConcordanceRow "WB: Europe" "FRA" "France"])
    None.

Definition example_tables_no_regions : Uis.tables :=
  Uis.Tables
    [Uis.CountryRow "FRA" "France" "IND1" "Literacy" 2020 "5" [("NOTE", "est.")]]
    None
    None.

(** A website whose listing changes after the first request and whose
    archives can be had twice and then no more; and one that always answers. *)
Definition updated_links (n : nat) : result (list Uis.dataset_info) :=
  Ok (if decide (n = 0)%nat then [education_2023] else [education_2024]).

Definition flaky_zipfile (n : nat) (url : string) : result Uis.tables :=
  if decide (n ≤ 1)%nat then Ok example_tables
  else Raise (ConnectionError "Could not read file from url").

Definition steady_zipfile (n : nat) (url : string) : result Uis.tables :=
  Ok example_tables.

Definition empty_state : Uis.state := Uis.State [] [] [] 0 [].

(** A facade right after [UIS("Education")] in a fresh process, and the state
    of the process then. *)
Definition example_facade : Uis.UIS :=
  Uis.MkUIS education_2023 (Uis.MkUISData 0 example_tables).

Definition example_loaded_state : Uis.state :=
  Uis.State [(Uis.Positional false, [education_2023])]
            [(("https://x/EDU.zip", Uis.Omitted), Uis.MkUISData 0 example_tables)]
            [Uis.GetLinks; Uis.GetZipfile "https://x/EDU.zip"] 1 [].

Definition example_facade_no_regions : Uis.UIS :=
  Uis.MkUIS education_2023 (Uis.MkUISData 0 example_tables_no_regions).

(** A server that answers every request with an empty document. *)
Definition quiet_server (n : nat) (request : Api.http_request) : Api.outcome :=
  Api.Answer (Api.Response 200 "OK" (Api.url request) (Api.JDocument [])).

(** The catalogue file behind [example_catalogue], and a download that has
    the archive of the worked example. *)
Definition example_table : list UisFrame.catalogue_line :=
  [UisFrame.CatalogueLine "Education" "EDU" "education"].

Definition example_unzip_folder (url : string) : result UisFrame.ZipFile :=
  if decide (url = "https://x/EDU.zip") then Ok example_folder
  else Raise (ConnectionError "Could not read file from url").

Definition example_legacy_facade : UisFrame.UIS :=
  UisFrame.MkUIS "EDU" "Education" "https://x/EDU.zip" "education" None None.

(** A server that has one published version and answers everything else with
    an empty document. *)
Definition versions_server (n : nat) (request : Api.http_request) : Api.outcome :=
  if decide (Api.url request = "https://api.uis.unesco.org/api/public/versions")
  then Api.Answer (Api.Response 200 "OK" (Api.url request) (Api.JVersions ["20250225-b3e5b6c1"]))
  else Api.Answer (Api.Response 200 "OK" (Api.url request) (Api.JDocument [])).

End Examples.


(** * Properties *)

(** ** The pandas pipeline of [src/unesco_reader/uis.py] *)

Section FrameFacts.
Import UisFrame.

Lemma group_lines_keys (rows : list metadata_row) :
  (group_lines rows).*1 = merge_sort key4_le (remove_dups (group_key <$> rows)).
Proof.
  unfold group_lines. rewrite <- list_fmap_compose.
  apply list_fmap_id.
Qed.

(** [groupby] leaves one line per key. *)
Lemma group_lines_NoDup (rows : list metadata_row) : NoDup (group_lines rows).*1.
Proof.
  rewrite group_lines_keys, merge_sort_Permutation.
  apply NoDup_remove_dups.
Qed.

Lemma group_lines_elem (rows : list metadata_row) (r : metadata_row) :
  r ∈ rows →
  (group_key r, join " / " (m_METADATA <$> group_rows rows (group_key r)))
    ∈ group_lines rows.
Proof.
  intros Hr. unfold group_lines.
  apply (list_elem_of_fmap_2
           (fun k => (k, join " / " (m_METADATA <$> group_rows rows k)))).
  rewrite merge_sort_Permutation, elem_of_remove_dups.
  by apply list_elem_of_fmap_2.
Qed.

Lemma pivot_NoDup (g : list (key4 * string)) :
  NoDup (g.*1) → pivot (AppliedFrame g) = Ok (pivoted g).
Proof. intros Hg. unfold pivot. by rewrite decide_True. Qed.


Lemma reset_index_inv (t t' : wide_table) :
  reset_index t = Ok t' → t' = t ∧ ∀ c, c ∈ wt_columns t → c ∉ index_names.
Proof.
  unfold reset_index.
  destruct (list_find (fun level => level ∈ wt_columns t) (reverse index_names))
    as [[n level]|] eqn:Hfind; [done|].
  intros [= <-]. split; [done|]. intros c Hc Hlevel.
  apply list_find_None in Hfind. rewrite Forall_forall in Hfind.
  apply (Hfind c); [by apply elem_of_reverse|done].
Qed.

(** The columns of the pivoted frame are the types of the lines. *)
Lemma pivoted_columns (rows : list metadata_row) (c : string) :
  c ∈ wt_columns (pivoted (group_lines rows)) ↔ c ∈ m_TYPE <$> rows.
Proof.
  simpl. rewrite merge_sort_Permutation, elem_of_remove_dups.
  rewrite group_lines_keys, !list_elem_of_fmap. split.
  - intros (k & -> & Hk).
    rewrite merge_sort_Permutation, elem_of_remove_dups in Hk.
    apply list_elem_of_fmap in Hk as (r & -> & Hr). by exists r.
  - intros (r & -> & Hr). exists (group_key r). split; [done|].
    rewrite merge_sort_Permutation, elem_of_remove_dups.
    by apply list_elem_of_fmap_2.
Qed.


Lemma format_metadata_inv (rows : list metadata_row) (t : wide_table) :
  format_metadata rows = Ok t →
  rows ≠ [] ∧ t = pivoted (group_lines rows)
  ∧ ∀ r, r ∈ rows → m_TYPE r ∉ index_names.
Proof.
  unfold format_metadata, groupby_join.
  destruct rows as [|r0 rows]; [done|].
  rewrite pivot_NoDup by apply group_lines_NoDup. simpl.
  intros [-> Hclean]%reset_index_inv. split; [done|]. split; [done|].
  intros r Hr. apply Hclean, pivoted_columns. by apply list_elem_of_fmap_2.
Qed.

(** The index of a pivoted table has no entry twice. *)
Lemma pivoted_index_NoDup (g : list (key4 * string)) : NoDup (wt_rows (pivoted g)).*1.
Proof.
  simpl. rewrite <- list_fmap_compose.
  rewrite (list_fmap_id _) by done.
  rewrite merge_sort_Permutation. apply NoDup_remove_dups.
Qed.

Lemma pivoted_cell (g : list (key4 * string)) (i : key3) (c v : string) :
  NoDup (g.*1) → ((i, c), v) ∈ g → wide_cell (pivoted g) i c = Some v.
Proof.
  intros Hg Hin. unfold wide_cell.
  set (columns := merge_sort String.le (remove_dups (snd <$> g.*1))).
  set (cells := (list_to_map g : gmap key4 string)).
  assert (Hi : i ∈ merge_sort key3_le (remove_dups (fst <$> g.*1))).
  { rewrite merge_sort_Permutation, elem_of_remove_dups.
    apply (list_elem_of_fmap_2' fst _ (i, c)); [|done].
    by apply (list_elem_of_fmap_2' fst _ (i, c, v)). }
  assert (Hc : c ∈ columns).
  { unfold columns. rewrite merge_sort_Permutation, elem_of_remove_dups.
    apply (list_elem_of_fmap_2' snd _ (i, c)); [|done].
    by apply (list_elem_of_fmap_2' fst _ (i, c, v)). }
  destruct (list_find_elem_of (fun r : key3 * list (option string) => r.1 = i)
              (wt_rows (pivoted g)) (i, (fun c => cells !! (i, c)) <$> columns))
    as [[n row] Hfind].
  { simpl. by apply (list_elem_of_fmap_2
                      (fun i => (i, (fun c => cells !! (i, c)) <$> columns))). }
  { done. }
  rewrite Hfind. simpl.
  apply list_find_Some in Hfind as (Hrow & Hkey & _).
  apply list_elem_of_lookup_2 in Hrow. simpl in Hrow.
  apply list_elem_of_fmap in Hrow as (i' & -> & _). simpl in Hkey. subst i'.
  destruct (list_find_elem_of (fun c' => c' = c) columns c Hc eq_refl) as [[m c'] Hcol].
  fold columns. rewrite Hcol. simpl.
  apply list_find_Some in Hcol as (Hcol & -> & _).
  rewrite list_lookup_fmap, Hcol. simpl.
  by apply elem_of_list_to_map.
Qed.

Lemma filter_none {A} (P : A → Prop) `{!∀ x, Decision (P x)} (l : list A) :
  (∀ x, x ∈ l → ¬ P x) → filter P l = [].
Proof.
  induction l as [|x l IH]; intros Hl; [done|].
  rewrite filter_cons, decide_False by (apply Hl; left).
  apply IH. intros y Hy. apply Hl. by right.
Qed.

(** A left line matches at most one line of a table with distinct keys. *)
Lemma filter_key_NoDup {A} (k : key3) (l : list (key3 * A)) :
  NoDup (l.*1) → (length (filter (fun m => m.1 = k) l) ≤ 1)%nat.
Proof.
  induction l as [|[k' a] l IH]; intros Hl; [simpl; lia|].
  rewrite fmap_cons in Hl. apply NoDup_cons in Hl as [Hk' Hl].
  rewrite filter_cons. destruct (decide ((k', a).1 = k)) as [Heq|Hne].
  - simpl in Heq. subst k'. simpl.
    assert (filter (fun m : key3 * A => m.1 = k) l = []) as ->; [|simpl; lia].
    apply filter_none. intros [k'' a'] Hin Hk''.
    simpl in Hk''. subst k''. apply Hk'.
    by apply (list_elem_of_fmap_2' fst _ (k, a')).
  - by apply IH.
Qed.

(** With distinct keys on the right, a left join hands back the left lines,
    one for one and in order. *)
Lemma merge_left_values (left : list (value_row * option string * option string))
    (right : wide_table) :
  NoDup (wt_rows right).*1 →
  (fun row => (mr_value row, mr_COUNTRY_NAME row, mr_INDICATOR_NAME row))
    <$> merge_left left right = left.
Proof.
  intros Hright. unfold merge_left.
  induction left as [|[[r cn] iname] left IH]; [done|].
  rewrite bind_cons, fmap_app, IH. clear IH.
  pose proof (filter_key_NoDup (join_key r) (wt_rows right) Hright) as Hlen.
  destruct (filter (fun m : key3 * list (option string) => m.1 = join_key r)
              (wt_rows right)) as [|m [|m' ms]]; simpl in *; [done|done|lia].
Qed.

Lemma merge_left_length (left : list (value_row * option string * option string))
    (right : wide_table) :
  NoDup (wt_rows right).*1 → length (merge_left left right) = length left.
Proof.
  intros Hright.
  rewrite <- (merge_left_values left right Hright) at 2.
  by rewrite length_fmap.
Qed.





(** A merge that goes through has the lines of the left join and the
    annotation columns under their names, with [_y] where they collide. *)
Lemma merge_inv (left : list (value_row * option string * option string))
    (right : wide_table) (merged : merged_frame) :
  merge left right = Ok merged →
  mf_rows merged = merge_left left right
  ∧ mf_columns merged
    = suffixed (filter (fun x => x ∈ wt_columns right) left_columns) "_y"
        <$> wt_columns right.
Proof.
  unfold merge. destruct (_ ++ _)%list; [|done]. by intros [= <-].
Qed.

(** What [transform_data] went through when it returns a frame. *)
Lemma transform_data_inv (folder : ZipFile) (code : string) (merged : merged_frame) :
  transform_data folder code = Ok merged →
  ∃ values labels countries metadata t,
    folder !! (code ++ "_DATA_NATIONAL.csv") = Some (DataCsv values)
    ∧ folder !! (code ++ "_LABEL.csv") = Some (LookupCsv labels)
    ∧ folder !! (code ++ "_COUNTRY.csv") = Some (LookupCsv countries)
    ∧ folder !! (code ++ "_METADATA.csv") = Some (MetadataCsv metadata)
    ∧ format_metadata metadata = Ok t
    ∧ merge (assign_names (mapping_dict countries) (mapping_dict labels) <$> values) t
      = Ok merged.
Proof.
  unfold transform_data, read_csv.
  destruct (folder !! (code ++ "_DATA_NATIONAL.csv")) as [df|]; [|done]. simpl.
  destruct (folder !! (code ++ "_LABEL.csv")) as [labels|]; [|done]. simpl.
  destruct (folder !! (code ++ "_COUNTRY.csv")) as [countries|]; [|done]. simpl.
  destruct (folder !! (code ++ "_METADATA.csv")) as [metadata|]; [|done]. simpl.
  destruct metadata as [| |metadata]; [done|done|]. simpl.
  destruct (format_metadata metadata) as [t|e] eqn:Hformat; [|done]. simpl.
  destruct df as [values| |]; [|done|done]. simpl.
  destruct countries as [|countries|]; [done| |done]. simpl.
  destruct labels as [|labels|]; [done| |done]. simpl.
  intros Hmerge. by exists values, labels, countries, metadata, t.
Qed.


End FrameFacts.

Section FrameClaims.
Import UisFrame Examples.










End FrameClaims.

(** ** Text of error messages *)

Section Messages.

Lemma prefix_app (s t : string) : String.prefix s (s ++ t) = true.
Proof.
  induction s as [|a s IH]; simpl.
  - by destruct t.
  - by destruct (ascii_dec a a).
Qed.

Lemma str_contains_prefix (s t : string) : str_contains s (s ++ t) = true.
Proof.
  pose proof (prefix_app s t) as Hpre.
  destruct (s ++ t) as [|a rest].
  - change (String.prefix s "" || false = true). by rewrite Hpre.
  - change (String.prefix s (String a rest) || str_contains s rest = true).
    by rewrite Hpre.
Qed.

Lemma str_contains_app (s pre post : string) :
  str_contains s (pre ++ s ++ post) = true.
Proof.
  induction pre as [|a pre IH].
  - apply (str_contains_prefix s post).
  - change (String a pre ++ s ++ post) with (String a (pre ++ s ++ post)).
    simpl. rewrite IH. apply orb_true_r.
Qed.

Lemma string_app_assoc (a b c : string) : (a ++ b) ++ c = a ++ b ++ c.
Proof.
  induction a as [|x a IH]; [done|].
  change (String x ((a ++ b) ++ c) = String x (a ++ b ++ c)). by rewrite IH.
Qed.

Lemma string_app_nil_r (a : string) : a ++ "" = a.
Proof.
  induction a as [|x a IH]; [done|].
  change (String x (a ++ "") = String x a). by rewrite IH.
Qed.

(** Every part of a joined text is in the text. *)
Lemma join_elem (sep part : string) (parts : list string) :
  part ∈ parts → ∃ pre post, join sep parts = pre ++ part ++ post.
Proof.
  unfold join. induction parts as [|p parts IH]; intros Hin.
  - by apply elem_of_nil in Hin.
  - apply elem_of_cons in Hin as [->|Hin].
    + destruct parts as [|q parts]; simpl.
      * exists "", "". by rewrite string_app_nil_r.
      * exists "", (sep ++ String.concat sep (q :: parts)). done.
    + destruct (IH Hin) as (pre & post & Heq).
      destruct parts as [|q parts]; [by apply elem_of_nil in Hin|].
      exists (p ++ sep ++ pre), post.
      change (String.concat sep (p :: q :: parts))
        with (p ++ sep ++ String.concat sep (q :: parts)).
      by rewrite Heq, !string_app_assoc.
Qed.

Lemma str_contains_join (sep part : string) (parts : list string) (pre : string) :
  part ∈ parts → str_contains part (pre ++ join sep parts) = true.
Proof.
  intros (pre' & post & ->)%(join_elem sep).
  rewrite <- string_app_assoc. apply str_contains_app.
Qed.

End Messages.

(** ** Resolving a dataset name *)

Section ResolveClaims.
Import Uis Examples.

Lemma find_dataset_None (dataset_name : string) (datasets : list dataset_info) :
  dataset_name ∉ name <$> datasets → find_dataset dataset_name datasets = None.
Proof.
  induction datasets as [|d datasets IH]; intros Hnot; [done|].
  simpl. rewrite fmap_cons, not_elem_of_cons in Hnot. destruct Hnot as [Hne Hnot].
  rewrite decide_False by done. by apply IH.
Qed.

(** C5, as the code has it: a name that is not in the listing makes
    [fetch_dataset_info] raise a [ValueError] whose message has every name of
    the listing in it (at least one when the listing is not empty), and a
    name that is neither a name nor a code of the catalogue makes
    [map_dataset_name] raise a [ValueError] that says only "Dataset not
    found:" and the name. *)
Theorem unknown_dataset_name_raises :
  (∀ (get_links : nat → result (list dataset_info)) (dataset_name : string)
     (refresh : bool) (st st' : state) (datasets : list dataset_info),
     fetch_info get_links (Positional refresh) st = (Ok datasets, st') →
     dataset_name ∉ name <$> datasets →
     fetch_dataset_info get_links dataset_name refresh st
     = (Raise (ValueError (not_found_message dataset_name datasets)), st')
     ∧ ∀ d, d ∈ datasets →
            str_contains (name d) (not_found_message dataset_name datasets) = true)
  ∧ (∀ (DATASETS : list UisFrame.dataset) (name : string),
       name ∉ UisFrame.dataset_name <$> DATASETS →
       name ∉ UisFrame.dataset_code <$> DATASETS →
       UisFrame.map_dataset_name DATASETS name
       = Raise (ValueError ("Dataset not found: " ++ name))).
Proof.
  split.
  - intros get_links dataset_name refresh st st' datasets Hinfo Hnot. split.
    + unfold fetch_dataset_info, mbind, M_bind. rewrite Hinfo.
      by rewrite find_dataset_None.
    + intros d Hd. unfold not_found_message.
      rewrite <- !string_app_assoc.
      apply str_contains_join. by apply list_elem_of_fmap_2.
  - intros DATASETS name Hname Hcode. unfold UisFrame.map_dataset_name.
    by rewrite !decide_False.
Qed.

Lemma unknown_dataset_name_raises_witness :
  (fetch_dataset_info updated_links "Health" false empty_state
   = (Raise (ValueError (not_found_message "Health" [education_2023])),
      (fetch_info updated_links (Positional false) empty_state).2)
   ∧ ∀ d, d ∈ [education_2023] →
          str_contains (name d) (not_found_message "Health" [education_2023]) = true)
  ∧ UisFrame.map_dataset_name example_catalogue "Health"
    = Raise (ValueError "Dataset not found: Health").
Proof.
  destruct unknown_dataset_name_raises as [Hnew Hold]. split.
  - apply (Hnew updated_links "Health" false empty_state); [reflexivity|].
    apply (bool_decide_unpack _). vm_compute. exact I.
  - apply (Hold example_catalogue "Health");
      apply (bool_decide_unpack _); vm_compute; exact I.
Defined.

(** The message of [map_dataset_name] for an unknown name has neither the
    name nor the code of the one dataset of the catalogue in it. *)
Lemma map_dataset_name_lists_no_alternative :
  ("Health" ∉ UisFrame.dataset_name <$> example_catalogue)
  ∧ ("Health" ∉ UisFrame.dataset_code <$> example_catalogue)
  ∧ ∃ msg, UisFrame.map_dataset_name example_catalogue "Health" = Raise (ValueError msg)
           ∧ ∀ d, d ∈ example_catalogue →
                  str_contains (UisFrame.dataset_name d) msg = false
                  ∧ str_contains (UisFrame.dataset_code d) msg = false.
Proof.
  split; [apply (bool_decide_unpack _); vm_compute; exact I|].
  split; [apply (bool_decide_unpack _); vm_compute; exact I|].
  exists "Dataset not found: Health". split; [reflexivity|].
  intros d ->%list_elem_of_singleton. split; reflexivity.
Qed.

End ResolveClaims.

(** ** The memo *)

Section LruFacts.
Context {K V : Type} `{EqDecision K}.

Lemma get_app (key : K) (c1 c2 : list (K * V)) :
  dict_get key (c1 ++ c2)
  = match dict_get key c1 with
    | Some v => Some v
    | None => dict_get key c2
    end.
Proof.
  induction c1 as [|[k v] c1 IH]; [done|].
  simpl. by destruct (decide (k = key)).
Qed.

Lemma get_filter_ne (key : K) (c : list (K * V)) :
  dict_get key (filter (fun e => e.1 ≠ key) c) = None.
Proof.
  induction c as [|[k v] c IH]; [done|].
  rewrite filter_cons. simpl. destruct (decide (k ≠ key)) as [Hne|Heq]; [|done].
  simpl. by rewrite decide_False.
Qed.

Lemma get_tail_None (key : K) (c : list (K * V)) :
  dict_get key c = None → dict_get key (tail c) = None.
Proof.
  destruct c as [|[k v] c]; [done|].
  simpl. by destruct (decide (k = key)).
Qed.

Lemma get_singleton (key : K) (v : V) : dict_get key [(key, v)] = Some v.
Proof. simpl. by rewrite decide_True. Qed.

(** After a hit the entry is still there. *)
Lemma get_touch (key : K) (v : V) (c : list (K * V)) :
  dict_get key (Lru.touch key v c) = Some v.
Proof. unfold Lru.touch. by rewrite get_app, get_filter_ne, get_singleton. Qed.

(** After a miss the result is stored, full memo or not. *)
Lemma get_put (key : K) (v : V) (c : list (K * V)) :
  dict_get key c = None → dict_get key (Lru.put key v c) = Some v.
Proof.
  intros Hmiss. unfold Lru.put. rewrite Hmiss.
  destruct (decide (Lru.maxsize ≤ length c)%nat).
  - by rewrite get_app, get_tail_None, get_singleton.
  - by rewrite get_app, Hmiss, get_singleton.
Qed.

End LruFacts.

(** ** Memoised fetching and the second [UIS] class *)

Section FetchFacts.
Import Uis.
Variable get_links : nat → result (list dataset_info).
Variable get_zipfile : nat → string → result tables.

(** What the body of [fetch_data] does when [refresh] is true: it empties the
    memo of [fetch_data], and only that one, and downloads. *)
Lemma fetch_data_body_refresh (url : string) (st : state) :
  fetch_data_body get_zipfile url true st = download get_zipfile url (set_data_cache [] st).
Proof. done. Qed.

Lemma fetch_data_body_plain (url : string) (st : state) :
  fetch_data_body get_zipfile url false st = download get_zipfile url st.
Proof. done. Qed.

Lemma download_frame (url : string) (st : state) :
  let out := download get_zipfile url st in
  info_cache out.2 = info_cache st
  ∧ data_cache out.2 = data_cache st
  ∧ network out.2 = (network st ++ [GetZipfile url])%list
  ∧ stdout out.2 = stdout st.
Proof. unfold download. by destruct (get_zipfile _ _). Qed.

Lemma scrape_frame (st : state) :
  let out := scrape get_links st in
  info_cache out.2 = info_cache st
  ∧ data_cache out.2 = data_cache st
  ∧ network out.2 = (network st ++ [GetLinks])%list.
Proof. done. Qed.

(** A call of [fetch_data] whose key is in the memo: the stored object, no
    download. *)
Lemma fetch_data_hit (url : string) (a : refresh_arg) (st : state) (d : UISData) :
  dict_get (url, a) (data_cache st) = Some d →
  fetch_data get_zipfile url a st
  = (Ok d, set_data_cache (Lru.touch (url, a) d (data_cache st)) st).
Proof. intros Hhit. unfold fetch_data, lru_cache. by rewrite Hhit. Qed.

(** A call of [fetch_data] whose key is not in the memo runs the body. *)
Lemma fetch_data_miss (url : string) (a : refresh_arg) (st : state) :
  dict_get (url, a) (data_cache st) = None →
  fetch_data get_zipfile url a st
  = match fetch_data_body get_zipfile url (refresh_of a) st with
    | (Ok v, st') => (Ok v, set_data_cache (Lru.put (url, a) v (data_cache st')) st')
    | (Raise e, st') => (Raise e, st')
    end.
Proof. intros Hmiss. unfold fetch_data, lru_cache. by rewrite Hmiss. Qed.

(** Whatever a call of [fetch_data] returned is in the memo under the key of
    that call. *)
Lemma fetch_data_stored (url : string) (a : refresh_arg) (st st' : state) (d : UISData) :
  fetch_data get_zipfile url a st = (Ok d, st') →
  dict_get (url, a) (data_cache st') = Some d.
Proof.
  destruct (dict_get (url, a) (data_cache st)) as [d0|] eqn:Hget.
  - rewrite (fetch_data_hit _ _ _ _ Hget). intros [= <- <-]. simpl. apply get_touch.
  - rewrite (fetch_data_miss _ _ _ Hget).
    destruct (fetch_data_body get_zipfile url (refresh_of a) st) as [[v|e] st1] eqn:Hbody;
      [|done].
    intros [= <- <-]. simpl. apply get_put.
    destruct (refresh_of a).
    + rewrite fetch_data_body_refresh in Hbody.
      pose proof (download_frame url (set_data_cache [] st)) as (_ & Hdata & _).
      rewrite Hbody in Hdata. simpl in Hdata. by rewrite Hdata.
    + rewrite fetch_data_body_plain in Hbody.
      pose proof (download_frame url st) as (_ & Hdata & _).
      rewrite Hbody in Hdata. simpl in Hdata. by rewrite Hdata.
Qed.

End FetchFacts.

Section FetchClaims.
Import Uis Examples.

(** C3, at the input where the code departs from it: a call of [fetch_data]
    that follows a successful call with the same location and the same way of
    passing [refresh] is answered from the memo, with the same object and
    without any download.  This is what the claim says for [refresh=False];
    it holds just as well for [refresh=True], where the claim wants a new
    download. *)
Theorem fetch_data_second_call_from_memo
    (get_zipfile : nat → string → result tables) (url : string) (a : refresh_arg)
    (st st1 : state) (d : UISData) :
  fetch_data get_zipfile url a st = (Ok d, st1) →
  ∃ st2, fetch_data get_zipfile url a st1 = (Ok d, st2)
         ∧ network st2 = network st1
         ∧ next_id st2 = next_id st1.
Proof.
  intros Hfirst. apply fetch_data_stored in Hfirst.
  eexists. split; [by apply fetch_data_hit|]. done.
Qed.

Lemma fetch_data_second_call_from_memo_witness :
  ∃ st2, fetch_data steady_zipfile "https://x/EDU.zip" (Keyword true)
           (fetch_data steady_zipfile "https://x/EDU.zip" (Keyword true) empty_state).2
         = (Ok (MkUISData 0 example_tables), st2)
         ∧ network st2 = [GetZipfile "https://x/EDU.zip"]
         ∧ next_id st2 = 1%nat.
Proof.
  apply (fetch_data_second_call_from_memo steady_zipfile "https://x/EDU.zip"
           (Keyword true) empty_state).
  reflexivity.
Defined.

(** C4, as the code has it: when [refresh] fails, the facade still has the
    data it had; it still has its dataset info as well when the lookup of the
    dataset info is what failed, and it has the newly fetched dataset info
    when the lookup went through and the retrieval of the data failed. *)
Theorem refresh_failure_keeps_data
    (get_links : nat → result (list dataset_info))
    (get_zipfile : nat → string → result tables)
    (self self' : UIS) (st st' : state) (e : exn) :
  refresh get_links get_zipfile self st = (Raise e, self', st') →
  _data self' = _data self
  ∧ match fetch_dataset_info get_links (name (_dataset_info self)) true st with
    | (Raise _, _) => self' = self
    | (Ok info, _) => _dataset_info self' = info
    end.
Proof.
  unfold refresh.
  destruct (fetch_dataset_info get_links (name (_dataset_info self)) true st)
    as [[info|e1] st1].
  - simpl. destruct (fetch_data get_zipfile (href info) (Keyword true) st1) as [[d|e2] st2].
    + discriminate.
    + by intros [= _ <- _].
  - by intros [= _ <- _].
Qed.

Lemma refresh_failure_keeps_data_witness :
  _data (refresh updated_links flaky_zipfile example_facade example_loaded_state).1.2
  = _data example_facade
  ∧ _dataset_info (refresh updated_links flaky_zipfile example_facade example_loaded_state).1.2
    = education_2024.
Proof.
  apply (refresh_failure_keeps_data updated_links flaky_zipfile example_facade _
           example_loaded_state
           (refresh updated_links flaky_zipfile example_facade example_loaded_state).2
           (ConnectionError "Could not read file from url")).
  reflexivity.
Defined.

(** A refresh that fails half way: the facade built by [UIS("Education")]
    comes out with the dataset info of 2024 and the data of 2023. *)
Lemma refresh_leaves_mixed_state :
  UIS_init updated_links flaky_zipfile "Education" empty_state
  = (Ok example_facade, example_loaded_state)
  ∧ (refresh updated_links flaky_zipfile example_facade example_loaded_state).1
    = (Raise (ConnectionError "Could not read file from url"),
       MkUIS education_2024 (_data example_facade))
  ∧ MkUIS education_2024 (_data example_facade) ≠ example_facade.
Proof. split; [reflexivity|]. split; [reflexivity|]. discriminate. Qed.

(** When the key of a call of [fetch_data] is not in the memo, the call
    downloads, whatever [refresh] is. *)
Lemma fetch_data_miss_network (get_zipfile : nat → string → result tables)
    (url : string) (a : refresh_arg) (st : state) :
  dict_get (url, a) (data_cache st) = None →
  network (fetch_data get_zipfile url a st).2 = (network st ++ [GetZipfile url])%list.
Proof.
  intros Hmiss. rewrite (fetch_data_miss _ _ _ _ Hmiss).
  destruct (refresh_of a).
  - rewrite fetch_data_body_refresh.
    pose proof (download_frame get_zipfile url (set_data_cache [] st)) as (_ & _ & Hnet & _).
    by destruct (download get_zipfile url (set_data_cache [] st)) as [[v|e] st1].
  - rewrite fetch_data_body_plain.
    pose proof (download_frame get_zipfile url st) as (_ & _ & Hnet & _).
    by destruct (download get_zipfile url st) as [[v|e] st1].
Qed.

Lemma fetch_info_miss_network (get_links : nat → result (list dataset_info))
    (a : refresh_arg) (st : state) :
  dict_get a (info_cache st) = None →
  network (fetch_info get_links a st).2 = (network st ++ [GetLinks])%list.
Proof.
  intros Hmiss. unfold fetch_info, lru_cache. rewrite Hmiss.
  unfold fetch_info_body, scrape, mbind, M_bind.
  destruct (refresh_of a); simpl; by destruct (get_links _).
Qed.

(** The state after a call with [refresh=True] whose body runs. *)
Lemma fetch_data_refresh_state (get_zipfile : nat → string → result tables)
    (url : string) (a : refresh_arg) (st : state) :
  refresh_of a = true →
  dict_get (url, a) (data_cache st) = None →
  let st' := (fetch_data get_zipfile url a st).2 in
  info_cache st' = info_cache st
  ∧ ∀ key, key ≠ (url, a) → dict_get key (data_cache st') = None.
Proof.
  intros Hrefresh Hmiss. simpl.
  rewrite (fetch_data_miss _ _ _ _ Hmiss), Hrefresh, fetch_data_body_refresh.
  unfold download. simpl.
  destruct (get_zipfile (length (network st)) url) as [t|e]; simpl; [|done].
  split; [done|]. intros key Hne. by rewrite decide_False.
Qed.

Lemma fetch_info_refresh_state (get_links : nat → result (list dataset_info))
    (a : refresh_arg) (st : state) :
  refresh_of a = true →
  dict_get a (info_cache st) = None →
  let st' := (fetch_info get_links a st).2 in
  data_cache st' = data_cache st
  ∧ ∀ key, key ≠ a → dict_get key (info_cache st') = None.
Proof.
  intros Hrefresh Hmiss. simpl.
  unfold fetch_info, lru_cache. rewrite Hmiss, Hrefresh.
  unfold fetch_info_body, scrape, mbind, M_bind. simpl.
  destruct (get_links (length (network st))) as [l|e]; simpl; [|done].
  split; [done|]. intros key Hne. by rewrite decide_False.
Qed.

(** [fetch_dataset_info] leaves the state as [fetch_info] left it. *)
Lemma fetch_dataset_info_state (get_links : nat → result (list dataset_info))
    (dataset_name : string) (refresh : bool) (st : state) :
  (fetch_dataset_info get_links dataset_name refresh st).2
  = (fetch_info get_links (Positional refresh) st).2.
Proof.
  unfold fetch_dataset_info, mbind, M_bind.
  destruct (fetch_info get_links (Positional refresh) st) as [[datasets|e] st1]; [|done].
  by destruct (find_dataset dataset_name datasets).
Qed.

(** C10, as the code has it: a call of [fetch_data] with [refresh=True] that
    is not itself answered from the memo empties the memo of [fetch_data], the
    entries of all locations, so that the next call for any other key
    downloads again, and leaves the memo of the listing as it is; a call of
    [fetch_info] with [refresh=True] that is not answered from the memo does
    the same to the memo of the listing and leaves the memo of [fetch_data] as
    it is; [UIS.refresh], when neither of its two calls is answered from the
    memo, leaves nothing in either memo but what these two calls stored. *)
Theorem refresh_clears_own_memo :
  (∀ (get_zipfile : nat → string → result tables) (url : string) (a : refresh_arg)
     (st : state),
     refresh_of a = true →
     dict_get (url, a) (data_cache st) = None →
     let st' := (fetch_data get_zipfile url a st).2 in
     info_cache st' = info_cache st
     ∧ (∀ url' a', (url', a') ≠ (url, a) → dict_get (url', a') (data_cache st') = None)
     ∧ (∀ url' a', (url', a') ≠ (url, a) →
          network (fetch_data get_zipfile url' a' st').2
          = (network st' ++ [GetZipfile url'])%list))
  ∧ (∀ (get_links : nat → result (list dataset_info)) (a : refresh_arg) (st : state),
       refresh_of a = true →
       dict_get a (info_cache st) = None →
       let st' := (fetch_info get_links a st).2 in
       data_cache st' = data_cache st
       ∧ (∀ a', a' ≠ a → dict_get a' (info_cache st') = None)
       ∧ (∀ a', a' ≠ a →
            network (fetch_info get_links a' st').2 = (network st' ++ [GetLinks])%list))
  ∧ (∀ (get_links : nat → result (list dataset_info))
       (get_zipfile : nat → string → result tables)
       (self : UIS) (st : state) (info : dataset_info),
       dict_get (Positional true) (info_cache st) = None →
       (fetch_dataset_info get_links (name (_dataset_info self)) true st).1 = Ok info →
       dict_get (href info, Keyword true) (data_cache st) = None →
       let st' := (refresh get_links get_zipfile self st).2 in
       (∀ a', a' ≠ Positional true → dict_get a' (info_cache st') = None)
       ∧ (∀ url' a', (url', a') ≠ (href info, Keyword true) →
            dict_get (url', a') (data_cache st') = None)).
Proof.
  split; [|split].
  - intros get_zipfile url a st Hrefresh Hmiss st'.
    destruct (fetch_data_refresh_state get_zipfile url a st Hrefresh Hmiss)
      as [Hinfo Hdata].
    split; [done|]. split.
    + intros url' a' Hne. by apply Hdata.
    + intros url' a' Hne. apply fetch_data_miss_network. by apply Hdata.
  - intros get_links a st Hrefresh Hmiss st'.
    destruct (fetch_info_refresh_state get_links a st Hrefresh Hmiss) as [Hdata Hinfo].
    split; [done|]. split.
    + done.
    + intros a' Hne. apply fetch_info_miss_network. by apply Hinfo.
  - intros get_links get_zipfile self st info Hmiss_info Hlookup Hmiss_data st'.
    destruct (fetch_info_refresh_state get_links (Positional true) st eq_refl Hmiss_info)
      as [Hdata1 Hinfo1].
    rewrite <- (fetch_dataset_info_state get_links (name (_dataset_info self))) in Hdata1, Hinfo1.
    subst st'. unfold refresh.
    destruct (fetch_dataset_info get_links (name (_dataset_info self)) true st)
      as [[info'|e] st1]; [|done].
    simpl in Hlookup, Hdata1, Hinfo1 |- *. injection Hlookup as ->.
    rewrite <- Hdata1 in Hmiss_data.
    destruct (fetch_data_refresh_state get_zipfile (href info) (Keyword true) st1
                eq_refl Hmiss_data) as [Hinfo2 Hdata2].
    destruct (fetch_data get_zipfile (href info) (Keyword true) st1) as [[d|e] st2];
      simpl in Hinfo2, Hdata2 |- *.
    + split; [intros a' Hne; rewrite Hinfo2; by apply Hinfo1|].
      intros url' a' Hne. by apply Hdata2.
    + split; [intros a' Hne; rewrite Hinfo2; by apply Hinfo1|].
      intros url' a' Hne. by apply Hdata2.
Qed.

Lemma refresh_clears_own_memo_witness :
  (let st' := (fetch_data steady_zipfile "https://x/SDG.zip" (Keyword true)
                 example_loaded_state).2 in
   info_cache st' = info_cache example_loaded_state
   ∧ (∀ url' a', (url', a') ≠ ("https://x/SDG.zip", Keyword true) →
        dict_get (url', a') (data_cache st') = None)
   ∧ (∀ url' a', (url', a') ≠ ("https://x/SDG.zip", Keyword true) →
        network (fetch_data steady_zipfile url' a' st').2
        = (network st' ++ [GetZipfile url'])%list))
  ∧ (let st' := (fetch_info updated_links (Positional true) example_loaded_state).2 in
     data_cache st' = data_cache example_loaded_state
     ∧ (∀ a', a' ≠ Positional true → dict_get a' (info_cache st') = None)
     ∧ (∀ a', a' ≠ Positional true →
          network (fetch_info updated_links a' st').2 = (network st' ++ [GetLinks])%list))
  ∧ (let st' := (refresh updated_links steady_zipfile example_facade
                   example_loaded_state).2 in
     (∀ a', a' ≠ Positional true → dict_get a' (info_cache st') = None)
     ∧ (∀ url' a', (url', a') ≠ ("https://x/EDU.zip", Keyword true) →
          dict_get (url', a') (data_cache st') = None)).
Proof.
  destruct refresh_clears_own_memo as (Hdata & Hinfo & Hrefresh). split; [|split].
  - apply (Hdata steady_zipfile "https://x/SDG.zip" (Keyword true) example_loaded_state);
      reflexivity.
  - apply (Hinfo updated_links (Positional true) example_loaded_state); reflexivity.
  - apply (Hrefresh updated_links steady_zipfile example_facade example_loaded_state
             education_2024); reflexivity.
Defined.

(** A refresh of the data of one location leaves the listing in its memo: the
    next call of [fetch_info] is answered without a request. *)
Lemma fetch_data_refresh_keeps_listing :
  let st' := (fetch_data steady_zipfile "https://x/EDU.zip" (Keyword true)
                example_loaded_state).2 in
  dict_get (Positional false) (info_cache st') = Some [education_2023]
  ∧ fetch_info updated_links (Positional false) st' = (Ok [education_2023], st')
  ∧ network (fetch_info updated_links (Positional false) st').2 = network st'.
Proof. split; [reflexivity|]. split; reflexivity. Qed.

End FetchClaims.

(** ** The two [UIS] classes *)

Section FacadeClaims.
Import Uis Examples.

(** C6: asked for the countries of a region that is not among the region ids
    of the concordance, [get_country_data] raises the "Region ID not found"
    error and returns no frame; when the dataset has no concordance of regions
    at all, it raises the "Regional data is not available" error. *)
Theorem get_country_data_unknown_region (self : UIS) (include_metadata : bool)
    (region : string) :
  (∀ concordance,
     region_concordance (data_tables (_data self)) = Some concordance →
     region ∉ region_id <$> concordance →
     get_country_data self include_metadata (Some region)
     = Raise (ValueError ("Region ID not found: " ++ region)))
  ∧ (region_concordance (data_tables (_data self)) = None →
     get_country_data self include_metadata (Some region)
     = Raise (ValueError "Regional data is not available for this dataset.")).
Proof.
  unfold get_country_data. split.
  - intros concordance -> Hnot.
    rewrite decide_False; [done|]. by rewrite elem_of_remove_dups.
  - by intros ->.
Qed.

Lemma get_country_data_unknown_region_witness :
  get_country_data example_facade false (Some "WB: Asia")
  = Raise (ValueError "Region ID not found: WB: Asia")
  ∧ get_country_data example_facade_no_regions false (Some "WB: Asia")
    = Raise (ValueError "Regional data is not available for this dataset.").
Proof.
  split.
  - destruct (get_country_data_unknown_region example_facade false "WB: Asia")
      as [Hunknown _].
    apply (Hunknown [ConcordanceRow "WB: Europe" "FRA" "France"]).
    + reflexivity.
    + apply (bool_decide_unpack _). vm_compute. exact I.
  - destruct (get_country_data_unknown_region example_facade_no_regions false "WB: Asia")
      as [_ Hnone].
    apply Hnone. reflexivity.
Defined.

(** What the first request of a call of [fetch_dataset_info] answers decides
    the call when the listing is not in the memo. *)
Lemma fetch_dataset_info_miss (get_links : nat → result (list dataset_info))
    (dataset_name : string) (st : state) (datasets : list dataset_info)
    (info : dataset_info) :
  dict_get (Positional false) (info_cache st) = None →
  get_links (length (network st)) = Ok datasets →
  find_dataset dataset_name datasets = Some info →
  fetch_dataset_info get_links dataset_name false st
  = (Ok info,
     State (Lru.put (Positional false) datasets (info_cache st)) (data_cache st)
           (network st ++ [GetLinks]) (next_id st) (stdout st)).
Proof.
  intros Hmiss Hlinks Hfind.
  unfold fetch_dataset_info, fetch_info, lru_cache, mbind, M_bind.
  rewrite Hmiss. unfold fetch_info_body, scrape, mbind, M_bind. simpl.
  by rewrite Hlinks, Hfind.
Qed.

(** C9, as the code has it: constructing the [UIS] of
    [src/src/unesco_reader/uis.py] in a process whose memos do not have the
    listing and the archive requests the listing and then downloads the archive
    of the dataset; the [UIS] of [src/unesco_reader/uis.py] is constructed
    without any download and with no data yet ([None]), [get_data] hands out
    that [None] without downloading, and the download happens in [load_data],
    which the caller has to call. *)
Theorem UIS_construction_and_retrieval :
  (∀ (get_links : nat → result (list dataset_info))
     (get_zipfile : nat → string → result tables)
     (dataset_name : string) (st : state) (datasets : list dataset_info)
     (info : dataset_info),
     dict_get (Positional false) (info_cache st) = None →
     dict_get (href info, Omitted) (data_cache st) = None →
     get_links (length (network st)) = Ok datasets →
     find_dataset dataset_name datasets = Some info →
     network (UIS_init get_links get_zipfile dataset_name st).2
     = (network st ++ [GetLinks; GetZipfile (href info)])%list)
  ∧ (∀ (DATASETS : list UisFrame.dataset) (dataset : string) (downloads : list string),
       (UisFrame.UIS_init DATASETS dataset downloads).2 = downloads
       ∧ ∀ self, (UisFrame.UIS_init DATASETS dataset downloads).1 = Ok self →
                 UisFrame.__data self = None
                 ∧ UisFrame.__folder self = None
                 ∧ UisFrame.get_data self downloads = (None, downloads))
  ∧ (∀ (unzip_folder : string → result UisFrame.ZipFile) (self : UisFrame.UIS)
       (downloads : list string),
       (UisFrame.load_data unzip_folder self downloads).2
       = (downloads ++ [UisFrame.__url self])%list).
Proof.
  split; [|split].
  - intros get_links get_zipfile dataset_name st datasets info Hinfo Hdata Hlinks Hfind.
    unfold UIS_init, mbind at 1, M_bind at 1.
    rewrite (fetch_dataset_info_miss _ _ _ _ _ Hinfo Hlinks Hfind).
    unfold mbind, M_bind, mret, M_ret.
    match goal with
    | |- context [fetch_data ?z ?u ?a ?s] =>
        pose proof (fetch_data_miss_network z u a s Hdata) as Hnet;
        destruct (fetch_data z u a s) as [[d|e] st2]
    end; simpl in Hnet |- *; rewrite Hnet; by rewrite <- app_assoc.
  - intros DATASETS dataset downloads. split; [done|].
    intros self. unfold UisFrame.UIS_init. simpl.
    destruct (UisFrame.map_dataset_name DATASETS dataset) as [code|e]; [|done]. simpl.
    destruct (UisFrame.values_0 (UisFrame.loc DATASETS code UisFrame.dataset_name))
      as [name|e]; [|done]. simpl.
    destruct (UisFrame.values_0 (UisFrame.loc DATASETS code UisFrame.link))
      as [url|e]; [|done]. simpl.
    destruct (UisFrame.values_0 (UisFrame.loc DATASETS code UisFrame.dataset_category))
      as [category|e]; [|done]. simpl.
    by intros [= <-].
  - intros unzip_folder self downloads. unfold UisFrame.load_data.
    destruct (unzip_folder _) as [folder|e]; [|done].
    by destruct (UisFrame.transform_data _ _).
Qed.

Lemma UIS_construction_and_retrieval_witness :
  network (UIS_init updated_links flaky_zipfile "Education" empty_state).2
  = [GetLinks; GetZipfile "https://x/EDU.zip"]
  ∧ ∀ self, (UisFrame.UIS_init example_catalogue "Education" []).1 = Ok self →
            UisFrame.__data self = None
            ∧ UisFrame.__folder self = None
            ∧ UisFrame.get_data self [] = (None, []).
Proof.
  destruct UIS_construction_and_retrieval as (Hnew & Hold & _). split.
  - apply (Hnew updated_links flaky_zipfile "Education" empty_state
             [education_2023] education_2023); reflexivity.
  - apply (Hold example_catalogue "Education" []).
Defined.

(** Constructing [UIS("Education")] in a fresh process goes to the network
    twice. *)
Lemma UIS_init_fetches_eagerly :
  network empty_state = []
  ∧ network (UIS_init updated_links flaky_zipfile "Education" empty_state).2
    = [GetLinks; GetZipfile "https://x/EDU.zip"].
Proof. split; reflexivity. Qed.

End FacadeClaims.

(** ** The API wrapper *)

Section ApiClaims.
Import Api Examples.
Variable server : nat → http_request → outcome.

(** A request goes out exactly once per [send], whatever comes back. *)
Lemma send_sent (endpoint : string) (params : option (list (string * param)))
    (st : state) :
  sent (send server endpoint params st).2
  = (sent st ++ [HttpRequest (API_URL ++ endpoint) params])%list.
Proof.
  unfold send. destruct (server _ _) as [e|e|r]; [done|done|].
  by destruct (_ ← _check_for_too_many_records r; _ ← raise_for_status r; response_json r).
Qed.

(** What is raised once the answer is there is no [ValueError]. *)
Lemma answer_no_ValueError (r : response) (e : exn) (msg : string) :
  (_ ← _check_for_too_many_records r; _ ← raise_for_status r; response_json r)
  = Raise e →
  except_clauses e ≠ ValueError msg.
Proof.
  unfold _check_for_too_many_records, raise_for_status, response_json, get_message.
  intros Hraise Hvalue.
  assert (Hkind : ∀ m, e ≠ ValueError m).
  { intros m ->.
    repeat (case_decide || case_match || simplify_eq/= || done). }
  destruct e; simplify_eq/=. by apply (Hkind msg).
Qed.

(** [send] raises no [ValueError]. *)
Lemma send_no_ValueError (endpoint : string) (params : option (list (string * param)))
    (st : state) (msg : string) :
  (send server endpoint params st).1 ≠ Raise (ValueError msg).
Proof.
  unfold send. destruct (server _ _) as [e|e|r]; [done|done|].
  destruct (_ ← _check_for_too_many_records r; _ ← raise_for_status r; response_json r)
    as [j|e] eqn:Hanswer; [done|].
  simpl. intros [= Hvalue]. by apply (answer_no_ValueError r e msg Hanswer).
Qed.

(** Where both years are given and are not 0, a start after the end is
    refused before anything is sent. *)
Lemma get_data_rejects_start_after_end (indicator : string) (start end_ : Z)
    (indicator_metadata footnotes : bool) (version : option string) (st : state) :
  start ≠ 0 → end_ ≠ 0 → (start > end_) →
  ∃ st', get_data server (Some (Str indicator)) None (Some start) (Some end_)
           indicator_metadata footnotes None version st
         = (Raise (ValueError "Start year cannot be greater than end year"), st')
         ∧ sent st' = sent st.
Proof.
  intros Hstart Hend Hgt. unfold get_data. simpl.
  unfold mbind, M_bind, lift, mret, M_ret. simpl.
  destruct (Z.eqb_spec start 0) as [|_]; [done|].
  destruct (Z.eqb_spec end_ 0) as [|_]; [done|]. simpl.
  assert ((start >? end_) = true) as -> by lia.
  eexists. split; [reflexivity|done].
Qed.

(** C8, at the input where the code departs from it: with the end year 0 and
    a start year after it, [get_data] does not raise its "Start year cannot
    be greater than end year" error; it sends the request, both years in
    it. *)
Theorem get_data_end_year_zero_is_sent (indicator : string) (start : Z) (st : state) :
  (start > 0) →
  let out := get_data server (Some (Str indicator)) None (Some start) (Some 0)
               false false None None st in
  sent out.2
  = (sent st ++ [HttpRequest (API_URL ++ "/api/public/data/indicators")
                   (Some [("end", PInt 0); ("footnotes", PStr "false");
                          ("indicator", PList [indicator]);
                          ("indicatorMetadata", PStr "false");
                          ("start", PInt start)])])%list
  ∧ out.1 ≠ Raise (ValueError "Start year cannot be greater than end year").
Proof.
  intros Hstart out. subst out. unfold get_data. simpl.
  unfold mbind, M_bind, lift, mret, M_ret. simpl.
  rewrite andb_false_r. simpl.
  split.
  - apply send_sent.
  - apply send_no_ValueError.
Qed.

End ApiClaims.

Section ApiWitness.
Import Api Examples.

Lemma get_data_end_year_zero_is_sent_witness :
  let out := get_data quiet_server (Some (Str "CR.1")) None (Some 2020) (Some 0)
               false false None None (State [] []) in
  sent out.2
  = [HttpRequest "https://api.uis.unesco.org/api/public/data/indicators"
       (Some [("end", PInt 0); ("footnotes", PStr "false");
              ("indicator", PList ["CR.1"]);
              ("indicatorMetadata", PStr "false");
              ("start", PInt 2020)])]
  ∧ out.1 ≠ Raise (ValueError "Start year cannot be greater than end year").
Proof.
  apply (get_data_end_year_zero_is_sent quiet_server "CR.1" 2020 (State [] [])).
  reflexivity.
Defined.

End ApiWitness.

(** * Further properties *)

(** ** The reshaped metadata *)

Section ReshapeFacts.
Import UisFrame Examples.

(** A cell of a pivoted table is the entry of its (index, column) pair. *)
Lemma wide_cell_pivoted (g : list (key4 * string)) (i : key3) (c : string) :
  NoDup (g.*1) → wide_cell (pivoted g) i c = (list_to_map g : gmap key4 string) !! (i, c).
Proof.
  intros Hg.
  destruct ((list_to_map g : gmap key4 string) !! (i, c)) as [v|] eqn:Hcell.
  { apply pivoted_cell; [done|]. by apply elem_of_list_to_map_2. }
  unfold wide_cell.
  destruct (list_find (fun r : key3 * list (option string) => r.1 = i)
              (wt_rows (pivoted g))) as [[n [i' cells]]|] eqn:Hrow; [|done].
  apply list_find_Some in Hrow as (Hrow & Hkey & _).
  apply list_elem_of_lookup_2, list_elem_of_fmap in Hrow as (i'' & [= -> ->] & _).
  simpl in Hkey. subst i''. simpl.
  destruct (list_find (fun c' => c' = c)
              (merge_sort String.le (remove_dups (g.*1).*2))) as [[m c']|] eqn:Hcol;
    [|done].
  apply list_find_Some in Hcol as (Hcol & -> & _). simpl.
  by rewrite list_lookup_fmap, Hcol, <- Hcell.
Qed.

(** X1: in a table that [format_metadata] returns, a cell is NaN exactly when
    no line of the long frame has the indicator, country and year of its index
    entry together with the type of its column. *)
Theorem format_metadata_cell_NaN_iff (rows : list metadata_row) (t : wide_table)
    (i : key3) (c : string) :
  format_metadata rows = Ok t →
  (wide_cell t i c = None ↔ (i, c) ∉ group_key <$> rows).
Proof.
  intros (_ & -> & _)%format_metadata_inv.
  rewrite wide_cell_pivoted by apply group_lines_NoDup.
  rewrite <- not_elem_of_list_to_map.
  rewrite group_lines_keys, merge_sort_Permutation, elem_of_remove_dups. done.
Qed.

Lemma format_metadata_cell_NaN_iff_witness :
  wide_cell example_wide_table ("IND1", "FRA", 2020) "SOURCE" = None
  ↔ ("IND1", "FRA", 2020, "SOURCE") ∉ group_key <$> example_metadata.
Proof.
  apply (format_metadata_cell_NaN_iff example_metadata example_wide_table).
  reflexivity.
Defined.

(** X2: a table that [format_metadata] returns is rectangular and has no
    index entry and no column twice: every line has one cell per column. *)
Theorem format_metadata_rectangular (rows : list metadata_row) (t : wide_table) :
  format_metadata rows = Ok t →
  NoDup (wt_columns t)
  ∧ NoDup (wt_rows t).*1
  ∧ ∀ line, line ∈ wt_rows t → length line.2 = length (wt_columns t).
Proof.
  intros (_ & -> & _)%format_metadata_inv. split; [|split].
  - simpl. rewrite merge_sort_Permutation. apply NoDup_remove_dups.
  - apply pivoted_index_NoDup.
  - intros line (i & -> & _)%list_elem_of_fmap. simpl. by rewrite length_fmap.
Qed.

Lemma format_metadata_rectangular_witness :
  NoDup (wt_columns example_wide_table)
  ∧ NoDup (wt_rows example_wide_table).*1
  ∧ ∀ line, line ∈ wt_rows example_wide_table →
            length line.2 = length (wt_columns example_wide_table).
Proof.
  apply (format_metadata_rectangular example_metadata example_wide_table).
  reflexivity.
Defined.

(** X3: the columns of a table that [format_metadata] returns are the values
    of [TYPE] that occur in the long frame, as they are written, and its index
    entries are the (indicator, country, year) triples that occur. *)
Theorem format_metadata_columns_and_index (rows : list metadata_row) (t : wide_table) :
  format_metadata rows = Ok t →
  (∀ c, c ∈ wt_columns t ↔ c ∈ m_TYPE <$> rows)
  ∧ (∀ i, i ∈ (wt_rows t).*1
          ↔ i ∈ (fun r => (m_INDICATOR_ID r, m_COUNTRY_ID r, m_YEAR r)) <$> rows).
Proof.
  intros (_ & -> & _)%format_metadata_inv.
  assert (Hkeys : ∀ k, k ∈ (group_lines rows).*1 ↔ k ∈ group_key <$> rows).
  { intros k. by rewrite group_lines_keys, merge_sort_Permutation, elem_of_remove_dups. }
  split.
  - apply pivoted_columns.
  - intros i. simpl. rewrite <- list_fmap_compose.
    rewrite (list_fmap_id _) by done.
    rewrite merge_sort_Permutation, elem_of_remove_dups.
    rewrite !list_elem_of_fmap. split.
    + intros (k & -> & Hk). apply Hkeys, list_elem_of_fmap in Hk as (r & -> & Hr).
      by exists r.
    + intros (r & -> & Hr). exists (group_key r). split; [done|].
      apply Hkeys. by apply list_elem_of_fmap_2.
Qed.

Lemma format_metadata_columns_and_index_witness :
  (∀ c, c ∈ wt_columns example_wide_table ↔ c ∈ m_TYPE <$> example_metadata)
  ∧ (∀ i, i ∈ (wt_rows example_wide_table).*1
          ↔ i ∈ (fun r => (m_INDICATOR_ID r, m_COUNTRY_ID r, m_YEAR r))
                <$> example_metadata).
Proof.
  apply (format_metadata_columns_and_index example_metadata example_wide_table).
  reflexivity.
Defined.

End ReshapeFacts.

Section ReshapeOrder.
Import UisFrame Examples.

Lemma lex_opp (c1 c2 : comparison) : CompOpp (lex c1 c2) = lex (CompOpp c1) (CompOpp c2).
Proof. by destruct c1. Qed.

Lemma key3_compare_antisym (a b : key3) : key3_compare a b = CompOpp (key3_compare b a).
Proof.
  unfold key3_compare. rewrite !lex_opp.
  by rewrite <- !String.compare_antisym, <- Z.compare_antisym.
Qed.

#[local] Instance key3_le_total : Total key3_le.
Proof.
  intros a b. unfold key3_le. rewrite (key3_compare_antisym b a).
  destruct (key3_compare a b); simpl; auto.
Qed.

(** X4: the lines of a table that [format_metadata] returns come in ascending
    order of (indicator, country, year) and its columns in ascending order of
    their names, whatever the order of the long frame. *)
Theorem format_metadata_sorted (rows : list metadata_row) (t : wide_table) :
  format_metadata rows = Ok t →
  Sorted key3_le (wt_rows t).*1 ∧ Sorted String.le (wt_columns t).
Proof.
  intros (_ & -> & _)%format_metadata_inv. split.
  - simpl. rewrite <- list_fmap_compose. rewrite (list_fmap_id _) by done.
    apply (Sorted_merge_sort key3_le).
  - apply (Sorted_merge_sort String.le).
Qed.

Lemma format_metadata_sorted_witness :
  Sorted key3_le (wt_rows example_wide_table).*1
  ∧ Sorted String.le (wt_columns example_wide_table).
Proof.
  apply (format_metadata_sorted example_metadata example_wide_table).
  reflexivity.
Defined.

(** With distinct keys on the right, a line of the left join that has a match
    carries the cells of the matching line. *)
Lemma merge_left_match (left : list (value_row * option string * option string))
    (right : wide_table) (row : merged_row) (i : key3) (cells : list (option string)) :
  NoDup (wt_rows right).*1 →
  row ∈ merge_left left right →
  (i, cells) ∈ wt_rows right →
  i = join_key (mr_value row) →
  mr_annotations row = cells.
Proof.
  intros Hright Hrow Hline Hkey. unfold merge_left in Hrow.
  apply list_elem_of_bind in Hrow as ([[r cn] iname] & Hrow & _).
  pose proof (filter_key_NoDup (join_key r) (wt_rows right) Hright) as Hlen.
  destruct (filter (fun m : key3 * list (option string) => m.1 = join_key r)
              (wt_rows right)) as [|m [|m' ms]] eqn:Hfilter; simpl in Hlen; [| |lia].
  - apply list_elem_of_singleton in Hrow. subst row. simpl in Hkey.
    assert (Hin : (i, cells) ∈ filter (fun m : key3 * list (option string) =>
                                         m.1 = join_key r) (wt_rows right)).
    { by apply list_elem_of_filter. }
    rewrite Hfilter in Hin. by apply elem_of_nil in Hin.
  - apply list_elem_of_singleton in Hrow. subst row. simpl in Hkey |- *.
    assert (Hin : (i, cells) ∈ filter (fun m : key3 * list (option string) =>
                                         m.1 = join_key r) (wt_rows right)).
    { by apply list_elem_of_filter. }
    rewrite Hfilter in Hin. apply list_elem_of_singleton in Hin. by subst m.
Qed.

(** X5: in a frame that [transform_data] returns, a line whose indicator,
    country and year occur in the metadata file has, in the column of each
    type that occurs with them and is not named like a column of the values
    frame, the texts of that type joined with " / " in file order. *)
Theorem transform_data_annotation_cells (folder : ZipFile) (code : string)
    (metadata : list metadata_row) (r : metadata_row) (merged : merged_frame) :
  transform_data folder code = Ok merged →
  folder !! (code ++ "_METADATA.csv") = Some (MetadataCsv metadata) →
  r ∈ metadata →
  m_TYPE r ∉ left_columns →
  ∀ row, row ∈ mf_rows merged →
    join_key (mr_value row) = (m_INDICATOR_ID r, m_COUNTRY_ID r, m_YEAR r) →
    ∃ j, mf_columns merged !! j = Some (m_TYPE r)
         ∧ mr_annotations row !! j
           = Some (Some (join " / "
                           (m_METADATA <$> filter (fun r' => group_key r' = group_key r)
                                             metadata))).
Proof.
  intros Hmerged Hm Hr Htype row Hrow Hkey.
  apply transform_data_inv in Hmerged
    as (values & labels & countries & metadata' & t & _ & _ & _ & Hm' & Hformat & Hmerge).
  rewrite Hm in Hm'. injection Hm' as <-.
  apply format_metadata_inv in Hformat as (_ & -> & _).
  apply merge_inv in Hmerge as [Hrows Hcolumns]. rewrite Hrows in Hrow.
  rewrite Hcolumns. clear Hrows Hcolumns.
  set (g := group_lines metadata) in *.
  set (columns := merge_sort String.le (remove_dups (g.*1).*2)).
  set (cells := (list_to_map g : gmap key4 string)).
  pose proof (group_lines_elem metadata r Hr) as Hg. fold g in Hg.
  assert (Hcol : m_TYPE r ∈ columns).
  { unfold columns. rewrite merge_sort_Permutation, elem_of_remove_dups.
    apply (list_elem_of_fmap_2' snd _ (group_key r)); [|done].
    by apply (list_elem_of_fmap_2' fst _ _ _ Hg). }
  apply list_elem_of_lookup_1 in Hcol as [j Hj].
  exists j. split.
  { change (wt_columns (pivoted g)) with columns.
    rewrite list_lookup_fmap, Hj. simpl. unfold suffixed.
    rewrite decide_False; [done|].
    intros [_ Hin]%list_elem_of_filter. done. }
  rewrite (merge_left_match _ (pivoted g) row
             (m_INDICATOR_ID r, m_COUNTRY_ID r, m_YEAR r)
             ((fun c => cells !! ((m_INDICATOR_ID r, m_COUNTRY_ID r, m_YEAR r), c))
                <$> columns)
             (pivoted_index_NoDup g) Hrow).
  - rewrite list_lookup_fmap, Hj. simpl. f_equal.
    apply elem_of_list_to_map_1; [apply group_lines_NoDup|done].
  - simpl. apply (list_elem_of_fmap_2
                    (fun i => (i, (fun c => cells !! (i, c)) <$> columns))).
    rewrite merge_sort_Permutation, elem_of_remove_dups.
    apply (list_elem_of_fmap_2' fst _ (group_key r)); [|done].
    by apply (list_elem_of_fmap_2' fst _ _ _ Hg).
  - done.
Qed.

Lemma transform_data_annotation_cells_witness :
  transform_data example_folder "EDU" = Ok example_merged_frame
  ∧ ∀ row, row ∈ mf_rows example_merged_frame →
      join_key (mr_value row) = ("IND1", "FRA", 2020) →
      ∃ j, mf_columns example_merged_frame !! j = Some "NOTE"
           ∧ mr_annotations row !! j = Some (Some "est. / revised").
Proof.
  split; [vm_compute; reflexivity|].
  apply (transform_data_annotation_cells example_folder "EDU" example_metadata
           (MetadataRow "IND1" "FRA" 2020 "NOTE" "est.") example_merged_frame).
  - vm_compute. reflexivity.
  - vm_compute. reflexivity.
  - vm_compute. left.
  - apply (bool_decide_unpack _). vm_compute. exact I.
Defined.

End ReshapeOrder.

(** ** The catalogue and the first [UIS] class *)

Section CatalogueFacts.
Import UisFrame Examples.

(** The lines that a column value selects start with a line of the frame that
    has this value. *)
Lemma filter_column_cons {A} `{EqDecision A} (column : dataset → A) (x : A)
    (DATASETS : list dataset) :
  x ∈ column <$> DATASETS →
  ∃ d rest, filter (fun d => column d = x) DATASETS = d :: rest
            ∧ d ∈ DATASETS ∧ column d = x.
Proof.
  intros (d0 & -> & Hd0)%list_elem_of_fmap.
  destruct (filter (fun d => column d = column d0) DATASETS) as [|d rest] eqn:Hfilter.
  - assert (Hin : d0 ∈ filter (fun d => column d = column d0) DATASETS).
    { by apply list_elem_of_filter. }
    rewrite Hfilter in Hin. by apply elem_of_nil in Hin.
  - exists d, rest. split; [done|].
    assert (Hin : d ∈ filter (fun d => column d = column d0) DATASETS).
    { rewrite Hfilter. left. }
    by apply list_elem_of_filter in Hin as [? ?].
Qed.

(** X6: [map_dataset_name] resolves a dataset name to the code of a catalogue
    line with that name, also when the same text is the code of another
    line, and gives back a text that is no name but a code unchanged; either
    way the result is a code of the catalogue. *)
Theorem map_dataset_name_resolves (DATASETS : list dataset) (name : string) :
  (name ∈ dataset_name <$> DATASETS →
   ∃ d, d ∈ DATASETS ∧ dataset_name d = name
        ∧ map_dataset_name DATASETS name = Ok (dataset_code d))
  ∧ (name ∉ dataset_name <$> DATASETS → name ∈ dataset_code <$> DATASETS →
     map_dataset_name DATASETS name = Ok name).
Proof.
  unfold map_dataset_name. split.
  - intros Hname. rewrite decide_True by done.
    destruct (filter_column_cons dataset_name name DATASETS Hname)
      as (d & rest & -> & Hd & Heq).
    by exists d.
  - intros Hname Hcode. by rewrite decide_False, decide_True.
Qed.

Lemma map_dataset_name_resolves_witness :
  ∃ d, d ∈ example_catalogue ∧ dataset_name d = "Education"
       ∧ map_dataset_name example_catalogue "Education" = Ok (dataset_code d).
Proof.
  destruct (map_dataset_name_resolves example_catalogue "Education") as [Hname _].
  apply Hname. apply (bool_decide_unpack _). vm_compute. exact I.
Defined.

Lemma map_dataset_name_code (DATASETS : list dataset) (name code : string) :
  map_dataset_name DATASETS name = Ok code → code ∈ dataset_code <$> DATASETS.
Proof.
  destruct (map_dataset_name_resolves DATASETS name) as [Hname Hcode].
  unfold map_dataset_name in *.
  destruct (decide (name ∈ dataset_name <$> DATASETS)) as [Hin|Hnot].
  - destruct (Hname Hin) as (d & Hd & _ & ->). intros [= <-].
    by apply list_elem_of_fmap_2.
  - destruct (decide (name ∈ dataset_code <$> DATASETS)); [|done].
    by intros [= <-].
Qed.

(** X7: constructing the first [UIS] with a name or a code of the catalogue
    succeeds, without an [IndexError] from the look-ups, and binds the object
    to the code, name, link and category of one catalogue line, with no
    folder and no data yet. *)
Theorem legacy_UIS_init_known (DATASETS : list dataset) (dataset : string)
    (downloads : list string) :
  dataset ∈ dataset_name <$> DATASETS ∨ dataset ∈ dataset_code <$> DATASETS →
  ∃ d, d ∈ DATASETS
       ∧ UIS_init DATASETS dataset downloads
         = (Ok (MkUIS (dataset_code d) (dataset_name d) (link d) (dataset_category d)
                      None None),
            downloads).
Proof.
  intros Hknown.
  assert (∃ code, map_dataset_name DATASETS dataset = Ok code) as [code Hcode].
  { destruct (map_dataset_name_resolves DATASETS dataset) as [Hname Hcode].
    destruct (decide (dataset ∈ dataset_name <$> DATASETS)) as [Hin|Hnot].
    - destruct (Hname Hin) as (d & _ & _ & ->). eauto.
    - destruct Hknown as [?|Hin]; [done|]. rewrite (Hcode Hnot Hin). eauto. }
  pose proof (map_dataset_name_code _ _ _ Hcode) as Hin.
  destruct (filter_column_cons dataset_code code DATASETS Hin)
    as (d & rest & Hfilter & Hd & Heq).
  exists d. split; [done|].
  unfold UIS_init, loc. rewrite Hcode. simpl. rewrite Hfilter. simpl.
  by rewrite Heq.
Qed.

Lemma legacy_UIS_init_known_witness :
  ∃ d, d ∈ example_catalogue
       ∧ UIS_init example_catalogue "EDU" []
         = (Ok (MkUIS (dataset_code d) (dataset_name d) (link d) (dataset_category d)
                      None None),
            []).
Proof.
  apply (legacy_UIS_init_known example_catalogue "EDU" []).
  right. apply (bool_decide_unpack _). vm_compute. exact I.
Defined.

(** X8: with the catalogue that [available_datasets] builds, the first [UIS]
    is bound to the link that is the base address, its own dataset code and
    ".zip". *)
Theorem legacy_UIS_url (BASE_URL : string) (table : list catalogue_line)
    (dataset : string) (downloads : list string) (self : UIS) :
  (UIS_init (available_datasets BASE_URL table) dataset downloads).1 = Ok self →
  __url self = BASE_URL ++ __dataset_code self ++ ".zip".
Proof.
  intros Hinit.
  assert (Hknown : dataset ∈ dataset_name <$> available_datasets BASE_URL table
                   ∨ dataset ∈ dataset_code <$> available_datasets BASE_URL table).
  { unfold UIS_init, map_dataset_name in Hinit. simpl in Hinit.
    destruct (decide (dataset ∈ dataset_name <$> available_datasets BASE_URL table));
      [by left|].
    destruct (decide (dataset ∈ dataset_code <$> available_datasets BASE_URL table));
      [by right|done]. }
  destruct (legacy_UIS_init_known _ _ downloads Hknown) as (d & Hd & Heq).
  rewrite Heq in Hinit. simpl in Hinit. injection Hinit as <-. simpl.
  unfold available_datasets in Hd.
  by apply list_elem_of_fmap in Hd as (x & -> & _).
Qed.

Lemma legacy_UIS_url_witness :
  __url example_legacy_facade = "https://x/" ++ __dataset_code example_legacy_facade ++ ".zip".
Proof.
  apply (legacy_UIS_url "https://x/" example_table "Education" []).
  reflexivity.
Defined.

(** X9: [load_data], when the download gives an archive on which
    [transform_data] goes through, records one download of the object's link
    and leaves the object with that archive as folder and with the merged
    frame, which has as many lines as the values file, as data; [get_data]
    then hands out this frame. *)
Theorem legacy_load_then_get (unzip_folder : string → result ZipFile) (self : UIS)
    (downloads : list string) (folder : ZipFile) (values : list value_row)
    (merged : merged_frame) :
  unzip_folder (__url self) = Ok folder →
  transform_data folder (__dataset_code self) = Ok merged →
  folder !! (__dataset_code self ++ "_DATA_NATIONAL.csv") = Some (DataCsv values) →
  ∃ self',
    load_data unzip_folder self downloads
    = (Ok (), self', (downloads ++ [__url self])%list)
    ∧ get_data self' (downloads ++ [__url self])%list
      = (Some merged, (downloads ++ [__url self])%list)
    ∧ length (mf_rows merged) = length values
    ∧ __folder self' = Some folder.
Proof.
  intros Hunzip Htransform Hv. unfold load_data. rewrite Hunzip. simpl.
  rewrite Htransform.
  eexists. split; [reflexivity|]. split; [reflexivity|]. split; [|reflexivity].
  apply transform_data_inv in Htransform
    as (values' & labels & countries & metadata & t & Hv' & _ & _ & _ & Hformat & Hmerge).
  rewrite Hv in Hv'. injection Hv' as <-.
  apply format_metadata_inv in Hformat as (_ & -> & _).
  apply merge_inv in Hmerge as [-> _].
  rewrite merge_left_length by apply pivoted_index_NoDup.
  by rewrite length_fmap.
Qed.

Lemma legacy_load_then_get_witness :
  ∃ self',
    load_data example_unzip_folder example_legacy_facade []
    = (Ok (), self', ["https://x/EDU.zip"])
    ∧ get_data self' ["https://x/EDU.zip"]
      = (Some example_merged_frame, ["https://x/EDU.zip"])
    ∧ length (mf_rows example_merged_frame) = 2%nat
    ∧ __folder self' = Some example_folder.
Proof.
  apply (legacy_load_then_get example_unzip_folder example_legacy_facade []
           example_folder example_values example_merged_frame);
    vm_compute; reflexivity.
Defined.

(** When the download fails, [load_data] raises what the download raised and
    leaves the object as it was; when the archive lacks a member, the folder
    of the object is already the new archive while its data is still what it
    was. *)
Lemma legacy_load_data_failure (unzip_folder : string → result ZipFile) (self : UIS)
    (downloads : list string) :
  (∀ e, unzip_folder (__url self) = Raise e →
        load_data unzip_folder self downloads
        = (Raise e, self, (downloads ++ [__url self])%list))
  ∧ (∀ folder e, unzip_folder (__url self) = Ok folder →
        transform_data folder (__dataset_code self) = Raise e →
        ∃ self', load_data unzip_folder self downloads
                 = (Raise e, self', (downloads ++ [__url self])%list)
                 ∧ __folder self' = Some folder
                 ∧ __data self' = __data self).
Proof.
  unfold load_data. split.
  - by intros e ->.
  - intros folder e -> Htransform. simpl. rewrite Htransform. by eexists.
Qed.

End CatalogueFacts.

(** ** The memo and the second [UIS] class, continued *)

Section SharingFacts.
Import Uis Examples.
Variable get_links : nat → result (list dataset_info).
Variable get_zipfile : nat → string → result tables.

Lemma find_dataset_Some (dataset_name : string) (datasets : list dataset_info)
    (info : dataset_info) :
  find_dataset dataset_name datasets = Some info →
  name info = dataset_name ∧ info ∈ datasets.
Proof.
  induction datasets as [|d datasets IH]; [done|]. simpl.
  destruct (decide (dataset_name = name d)) as [->|Hne].
  - intros [= <-]. split; [done|left].
  - intros [Hname Hin]%IH. split; [done|by right].
Qed.

Lemma fetch_info_hit (a : refresh_arg) (st : state) (l : list dataset_info) :
  dict_get a (info_cache st) = Some l →
  fetch_info get_links a st = (Ok l, set_info_cache (Lru.touch a l (info_cache st)) st).
Proof. intros Hhit. unfold fetch_info, lru_cache. by rewrite Hhit. Qed.

Lemma fetch_info_stored (a : refresh_arg) (st st' : state) (l : list dataset_info) :
  fetch_info get_links a st = (Ok l, st') → dict_get a (info_cache st') = Some l.
Proof.
  destruct (dict_get a (info_cache st)) as [l0|] eqn:Hget.
  - rewrite (fetch_info_hit _ _ _ Hget). intros [= <- <-]. simpl. apply get_touch.
  - unfold fetch_info, lru_cache. rewrite Hget.
    unfold fetch_info_body, scrape, mbind, M_bind.
    destruct (refresh_of a); simpl;
      destruct (get_links (length (network st))) as [l1|e]; simpl; try done;
      intros [= <- <-]; simpl.
    + by rewrite decide_True.
    + by apply get_put.
Qed.

(** [fetch_info] touches nothing but its memo and the traffic. *)
Lemma fetch_info_frame (a : refresh_arg) (st : state) :
  let st' := (fetch_info get_links a st).2 in
  data_cache st' = data_cache st ∧ next_id st' = next_id st ∧ stdout st' = stdout st.
Proof.
  simpl. unfold fetch_info, lru_cache.
  destruct (dict_get a (info_cache st)); [done|].
  unfold fetch_info_body, scrape, mbind, M_bind.
  destruct (refresh_of a); simpl; by destruct (get_links (length (network st))).
Qed.

(** [fetch_data] touches nothing of the memo of the listing. *)
Lemma fetch_data_frame (url : string) (a : refresh_arg) (st : state) :
  let st' := (fetch_data get_zipfile url a st).2 in
  info_cache st' = info_cache st ∧ stdout st' = stdout st.
Proof.
  simpl. unfold fetch_data, lru_cache.
  destruct (dict_get (url, a) (data_cache st)); [done|].
  unfold fetch_data_body, download, mbind, M_bind.
  destruct (refresh_of a); simpl; by destruct (get_zipfile (length (network st)) url).
Qed.

(** What a successful [fetch_dataset_info] went through. *)
Lemma fetch_dataset_info_Ok (dataset_name : string) (refresh : bool) (st st' : state)
    (info : dataset_info) :
  fetch_dataset_info get_links dataset_name refresh st = (Ok info, st') →
  ∃ datasets, fetch_info get_links (Positional refresh) st = (Ok datasets, st')
              ∧ find_dataset dataset_name datasets = Some info.
Proof.
  unfold fetch_dataset_info, mbind, M_bind.
  destruct (fetch_info get_links (Positional refresh) st) as [[datasets|e] st1]; [|done].
  destruct (find_dataset dataset_name datasets) as [d|] eqn:Hfind; [|done].
  intros [= <- <-]. by exists datasets.
Qed.

(** A [fetch_dataset_info] whose listing is in the memo. *)
Lemma fetch_dataset_info_hit (dataset_name : string) (refresh : bool) (st : state)
    (datasets : list dataset_info) (info : dataset_info) :
  dict_get (Positional refresh) (info_cache st) = Some datasets →
  find_dataset dataset_name datasets = Some info →
  fetch_dataset_info get_links dataset_name refresh st
  = (Ok info,
     set_info_cache (Lru.touch (Positional refresh) datasets (info_cache st)) st).
Proof.
  intros Hhit Hfind. unfold fetch_dataset_info, mbind, M_bind.
  by rewrite (fetch_info_hit _ _ _ Hhit), Hfind.
Qed.

(** X10: the dataset info that [fetch_dataset_info] returns is an entry of
    the listing and has the name that was asked for. *)
Theorem fetch_dataset_info_found (dataset_name : string) (refresh : bool)
    (st st' : state) (info : dataset_info) :
  fetch_dataset_info get_links dataset_name refresh st = (Ok info, st') →
  name info = dataset_name
  ∧ ∃ datasets, fetch_info get_links (Positional refresh) st = (Ok datasets, st')
                ∧ info ∈ datasets.
Proof.
  intros (datasets & Hinfo & Hfind)%fetch_dataset_info_Ok.
  apply find_dataset_Some in Hfind as [Hname Hin].
  split; [done|]. by exists datasets.
Qed.

(** X11: a second [UIS] constructed for the same name right after a first
    one holds the identical dataset info and the identical [UISData] object,
    and its construction causes no traffic. *)
Theorem UIS_init_twice_shares (dataset_name : string) (st st1 : state) (self : UIS) :
  UIS_init get_links get_zipfile dataset_name st = (Ok self, st1) →
  ∃ st2, UIS_init get_links get_zipfile dataset_name st1 = (Ok self, st2)
         ∧ network st2 = network st1
         ∧ next_id st2 = next_id st1.
Proof.
  unfold UIS_init, mbind at 1, M_bind at 1.
  destruct (fetch_dataset_info get_links dataset_name false st)
    as [[info|e] sta] eqn:Hinfo; [|done].
  unfold mbind at 1, M_bind at 1.
  destruct (fetch_data get_zipfile (href info) Omitted sta) as [[d|e] stb] eqn:Hdata;
    [|done].
  intros [= <- <-].
  apply fetch_dataset_info_Ok in Hinfo as (datasets & Hlist & Hfind).
  apply fetch_info_stored in Hlist.
  pose proof (fetch_data_frame (href info) Omitted sta) as [Hframe _].
  rewrite Hdata in Hframe. simpl in Hframe.
  apply fetch_data_stored in Hdata.
  unfold mbind at 1, M_bind at 1.
  rewrite <- Hframe in Hlist.
  rewrite (fetch_dataset_info_hit dataset_name false stb datasets info Hlist Hfind).
  unfold mbind, M_bind.
  rewrite (fetch_data_hit get_zipfile (href info) Omitted _ d) by done.
  eexists. split; [reflexivity|]. done.
Qed.

End SharingFacts.

Section SharingWitness.
Import Uis Examples.

Lemma UIS_init_twice_shares_witness :
  ∃ st2, UIS_init updated_links flaky_zipfile "Education" example_loaded_state
         = (Ok example_facade, st2)
         ∧ network st2 = network example_loaded_state
         ∧ next_id st2 = next_id example_loaded_state.
Proof.
  apply (UIS_init_twice_shares updated_links flaky_zipfile "Education" empty_state
           example_loaded_state example_facade).
  reflexivity.
Defined.

Lemma fetch_dataset_info_found_witness :
  name education_2023 = "Education"
  ∧ ∃ datasets, fetch_info updated_links (Positional false) empty_state
                = (Ok datasets,
                   (fetch_dataset_info updated_links "Education" false empty_state).2)
                ∧ education_2023 ∈ datasets.
Proof.
  apply (fetch_dataset_info_found updated_links "Education" false empty_state).
  reflexivity.
Defined.

End SharingWitness.

Section RefreshFacts.
Import Uis Examples.
Variable get_links : nat → result (list dataset_info).
Variable get_zipfile : nat → string → result tables.

(** What a successful [refresh] went through. *)
Lemma refresh_Ok (self self1 : UIS) (st st1 : state) :
  refresh get_links get_zipfile self st = (Ok (), self1, st1) →
  ∃ info d sta stb,
    fetch_dataset_info get_links (name (_dataset_info self)) true st = (Ok info, sta)
    ∧ fetch_data get_zipfile (href info) (Keyword true) sta = (Ok d, stb)
    ∧ self1 = MkUIS info d
    ∧ st1 = State (info_cache stb) (data_cache stb) (network stb) (next_id stb)
                  (stdout stb ++ ["Data refreshed."]).
Proof.
  unfold refresh.
  destruct (fetch_dataset_info get_links (name (_dataset_info self)) true st)
    as [[info|e] sta]; [|done]. simpl.
  destruct (fetch_data get_zipfile (href info) (Keyword true) sta) as [[d|e] stb]
    eqn:Hdata; [|done].
  intros [= <- <-]. by exists info, d, sta, stb.
Qed.

(** X12: [refresh] called again right after a [refresh] that succeeded
    succeeds as well, causes no traffic, builds no new object and leaves the
    facade with the dataset info and the [UISData] object it had. *)
Theorem refresh_twice_from_memo (self self1 : UIS) (st st1 : state) :
  refresh get_links get_zipfile self st = (Ok (), self1, st1) →
  ∃ st2, refresh get_links get_zipfile self1 st1 = (Ok (), self1, st2)
         ∧ network st2 = network st1
         ∧ next_id st2 = next_id st1.
Proof.
  intros (info & d & sta & stb & Hinfo & Hdata & -> & ->)%refresh_Ok.
  apply fetch_dataset_info_Ok in Hinfo as (datasets & Hlist & Hfind).
  pose proof (find_dataset_Some _ _ _ Hfind) as [Hname _].
  apply fetch_info_stored in Hlist.
  pose proof (fetch_data_frame get_zipfile (href info) (Keyword true) sta) as [Hframe _].
  rewrite Hdata in Hframe. simpl in Hframe.
  apply fetch_data_stored in Hdata.
  rewrite <- Hframe in Hlist. rewrite <- Hname in Hfind.
  set (st1 := State (info_cache stb) (data_cache stb) (network stb) (next_id stb)
                    (stdout stb ++ ["Data refreshed."])).
  unfold refresh.
  change (_dataset_info (MkUIS info d)) with info.
  rewrite (fetch_dataset_info_hit get_links (name info) true st1 datasets info Hlist Hfind).
  change (_dataset_info (MkUIS info (_data (MkUIS info d)))) with info.
  rewrite (fetch_data_hit get_zipfile (href info) (Keyword true)
             (set_info_cache (Lru.touch (Positional true) datasets (info_cache st1)) st1)
             d Hdata).
  eexists. split; [reflexivity|]. done.
Qed.

(** X13: whether it succeeds or fails, [refresh] leaves the facade bound to
    a dataset info of the same name. *)
Theorem refresh_keeps_name (self : UIS) (st : state) :
  name (_dataset_info (refresh get_links get_zipfile self st).1.2)
  = name (_dataset_info self).
Proof.
  unfold refresh.
  destruct (fetch_dataset_info get_links (name (_dataset_info self)) true st)
    as [[info|e] sta] eqn:Hinfo; [|done].
  apply fetch_dataset_info_Ok in Hinfo as (datasets & _ & Hfind).
  apply find_dataset_Some in Hfind as [Hname _]. simpl.
  by destruct (fetch_data get_zipfile (href info) (Keyword true) sta) as [[d|e] stb].
Qed.

(** X14: a [refresh] neither of whose two calls is answered from the memo,
    when the website lists the dataset and hands out its archive, requests
    the listing, then downloads the archive at the link of the new listing,
    binds the facade to the new dataset info and to a newly built [UISData]
    object, and prints "Data refreshed." *)
Theorem refresh_rebinds (self : UIS) (st : state) (datasets : list dataset_info)
    (info : dataset_info) (t : tables) :
  dict_get (Positional true) (info_cache st) = None →
  get_links (length (network st)) = Ok datasets →
  find_dataset (name (_dataset_info self)) datasets = Some info →
  dict_get (href info, Keyword true) (data_cache st) = None →
  get_zipfile (S (length (network st))) (href info) = Ok t →
  refresh get_links get_zipfile self st
  = (Ok (), MkUIS info (MkUISData (next_id st) t),
     State [(Positional true, datasets)]
           [((href info, Keyword true), MkUISData (next_id st) t)]
           (network st ++ [GetLinks; GetZipfile (href info)])
           (S (next_id st))
           (stdout st ++ ["Data refreshed."])).
Proof.
  intros Hinfo Hlinks Hfind Hdata Hzip.
  unfold refresh, fetch_dataset_info, fetch_info, lru_cache, mbind, M_bind.
  rewrite Hinfo. unfold fetch_info_body, scrape, mbind, M_bind. simpl.
  rewrite Hlinks, Hfind. simpl.
  unfold fetch_data, lru_cache. simpl. rewrite Hdata.
  unfold fetch_data_body, download, mbind, M_bind. simpl.
  rewrite length_app, Nat.add_1_r, Hzip. simpl.
  by rewrite <- app_assoc.
Qed.

(** Neither memo outgrows the bound of [lru_cache]. *)
Lemma touch_length {K V} `{EqDecision K} (key : K) (v v' : V) (c : list (K * V)) :
  dict_get key c = Some v' → (length (Lru.touch key v c) ≤ length c)%nat.
Proof.
  intros Hget. unfold Lru.touch. rewrite length_app. simpl.
  assert (∃ e, e ∈ c ∧ e.1 = key) as (e & Hin & Hkey).
  { induction c as [|[k w] c IH]; [done|]. simpl in Hget.
    destruct (decide (k = key)) as [->|Hne].
    - exists (key, w). split; [left|done].
    - destruct (IH Hget) as (e & Hin & Hkey). exists e. split; [by right|done]. }
  pose proof (length_filter_lt (fun e : K * V => e.1 ≠ key) c e Hin) as Hlt.
  assert (¬ e.1 ≠ key) as Hnot by (intros Hne; by apply Hne).
  specialize (Hlt Hnot). lia.
Qed.

Lemma put_length {K V} `{EqDecision K} (key : K) (v : V) (c : list (K * V)) :
  (length c ≤ Lru.maxsize)%nat → (length (Lru.put key v c) ≤ Lru.maxsize)%nat.
Proof.
  intros Hlen. unfold Lru.put.
  destruct (dict_get key c); [done|].
  destruct (decide (Lru.maxsize ≤ length c)%nat) as [Hfull|Hroom].
  - rewrite length_app. simpl.
    destruct c as [|e c]; simpl in *; [unfold Lru.maxsize in Hfull; lia|lia].
  - rewrite length_app. simpl. lia.
Qed.

(** X15: [fetch_data] and [fetch_info] never leave more than 128 entries in
    their memos: a memo within the bound is still within it after any call. *)
Theorem memo_bounded :
  (∀ (url : string) (a : refresh_arg) (st : state),
     (length (data_cache st) ≤ 128)%nat →
     (length (data_cache (fetch_data get_zipfile url a st).2) ≤ 128)%nat)
  ∧ (∀ (a : refresh_arg) (st : state),
       (length (info_cache st) ≤ 128)%nat →
       (length (info_cache (fetch_info get_links a st).2) ≤ 128)%nat).
Proof.
  split.
  - intros url a st Hlen. unfold fetch_data, lru_cache.
    destruct (dict_get (url, a) (data_cache st)) as [d|] eqn:Hget.
    + simpl. pose proof (touch_length (url, a) d d (data_cache st) Hget). lia.
    + unfold fetch_data_body, download, mbind, M_bind.
      destruct (refresh_of a); simpl;
        destruct (get_zipfile (length (network st)) url) as [t|e]; simpl;
        try lia; by apply put_length.
  - intros a st Hlen. unfold fetch_info, lru_cache.
    destruct (dict_get a (info_cache st)) as [l|] eqn:Hget.
    + simpl. pose proof (touch_length a l l (info_cache st) Hget). lia.
    + unfold fetch_info_body, scrape, mbind, M_bind.
      destruct (refresh_of a); simpl;
        destruct (get_links (length (network st))) as [l|e]; simpl;
        try lia; by apply put_length.
Qed.

End RefreshFacts.

Section RefreshWitness.
Import Uis Examples.

Lemma refresh_twice_from_memo_witness :
  ∃ st2, refresh updated_links steady_zipfile
           (refresh updated_links steady_zipfile example_facade example_loaded_state).1.2
           (refresh updated_links steady_zipfile example_facade example_loaded_state).2
         = (Ok (),
            (refresh updated_links steady_zipfile example_facade example_loaded_state).1.2,
            st2)
         ∧ network st2
           = network (refresh updated_links steady_zipfile example_facade
                        example_loaded_state).2
         ∧ next_id st2
           = next_id (refresh updated_links steady_zipfile example_facade
                        example_loaded_state).2.
Proof.
  apply (refresh_twice_from_memo updated_links steady_zipfile example_facade _
           example_loaded_state).
  reflexivity.
Defined.

Lemma refresh_rebinds_witness :
  refresh updated_links steady_zipfile example_facade example_loaded_state
  = (Ok (), MkUIS education_2024 (MkUISData 1 example_tables),
     State [(Positional true, [education_2024])]
           [(("https://x/EDU.zip", Keyword true), MkUISData 1 example_tables)]
           [GetLinks; GetZipfile "https://x/EDU.zip"; GetLinks;
            GetZipfile "https://x/EDU.zip"]
           2 ["Data refreshed."]).
Proof.
  apply (refresh_rebinds updated_links steady_zipfile example_facade example_loaded_state
           [education_2024] education_2024 example_tables); reflexivity.
Defined.

Lemma memo_bounded_witness :
  (length (data_cache (fetch_data steady_zipfile "https://x/SDG.zip" Omitted
                         example_loaded_state).2) ≤ 128)%nat
  ∧ (length (info_cache (fetch_info updated_links (Positional true)
                           example_loaded_state).2) ≤ 128)%nat.
Proof.
  destruct (memo_bounded updated_links steady_zipfile) as [Hdata Hinfo]. split.
  - apply (Hdata "https://x/SDG.zip" Omitted example_loaded_state). simpl. lia.
  - apply (Hinfo (Positional true) example_loaded_state). simpl. lia.
Defined.

End RefreshWitness.

(** ** Country data *)

Section CountryFacts.
Import Uis Examples.

(** X16: filtered by a region of the concordance, [get_country_data] returns
    the lines of the country data whose country the concordance puts in that
    region, those and no others, in the order of the country data. *)
Theorem get_country_data_region (self : UIS) (include_metadata : bool) (region : string)
    (concordance : list concordance_row) :
  region_concordance (data_tables (_data self)) = Some concordance →
  region ∈ region_id <$> concordance →
  ∃ df, get_country_data self include_metadata (Some region) = Ok df
        ∧ (∀ r, r ∈ df ↔
                ∃ r0, r0 ∈ country_data (data_tables (_data self))
                      ∧ r = (if include_metadata then r0 else default_columns r0)
                      ∧ ∃ c, c ∈ concordance ∧ region_id c = region
                             ∧ rc_country_id c = country_id r0)
        ∧ ∃ all, get_country_data self include_metadata None = Ok all ∧ sublist df all.
Proof.
  intros Hconcordance Hregion. unfold get_country_data. rewrite Hconcordance.
  rewrite decide_True by (by rewrite elem_of_remove_dups).
  eexists. split; [reflexivity|]. split.
  - intros r. rewrite list_elem_of_filter. split.
    + intros [Hcountry Hr].
      apply list_elem_of_fmap in Hcountry as (c & Hid & Hc).
      apply list_elem_of_filter in Hc as [Hreg Hc].
      destruct include_metadata; simpl in Hr.
      * exists r. split; [done|]. split; [done|]. by exists c.
      * apply list_elem_of_fmap in Hr as (r0 & -> & Hr0).
        exists r0. split; [done|]. split; [done|]. by exists c.
    + intros (r0 & Hr0 & -> & c & Hc & Hreg & Hid). split.
      * apply (list_elem_of_fmap_2' rc_country_id _ c).
        -- by apply list_elem_of_filter.
        -- by destruct include_metadata.
      * destruct include_metadata; simpl; [done|].
        by apply (list_elem_of_fmap_2 default_columns).
  - eexists. split; [reflexivity|]. apply sublist_filter.
Qed.

Lemma get_country_data_region_witness :
  ∃ df, get_country_data example_facade true (Some "WB: Europe") = Ok df
        ∧ (∀ r, r ∈ df ↔
                ∃ r0, r0 ∈ country_data (data_tables (_data example_facade))
                      ∧ r = r0
                      ∧ ∃ c, c ∈ [ConcordanceRow "WB: Europe" "FRA" "France"]
                             ∧ region_id c = "WB: Europe"
                             ∧ rc_country_id c = country_id r0)
        ∧ ∃ all, get_country_data example_facade true None = Ok all ∧ sublist df all.
Proof.
  apply (get_country_data_region example_facade true "WB: Europe"
           [ConcordanceRow "WB: Europe" "FRA" "France"]).
  - reflexivity.
  - vm_compute. left.
Defined.

(** X17: without [include_metadata], [get_country_data] returns lines that
    have the six columns country_id, country_name, indicator_id,
    indicator_label, year and value as they were and no other column; without
    a region it returns one line per line of the country data. *)
Theorem get_country_data_default_columns (self : UIS) (region : option string)
    (df : list country_row) :
  get_country_data self false region = Ok df →
  (∀ r, r ∈ df →
        metadata_columns r = []
        ∧ ∃ r0, r0 ∈ country_data (data_tables (_data self))
                ∧ country_id r = country_id r0 ∧ country_name r = country_name r0
                ∧ indicator_id r = indicator_id r0
                ∧ indicator_label r = indicator_label r0
                ∧ year r = year r0 ∧ value r = value r0)
  ∧ (region = None → length df = length (country_data (data_tables (_data self)))).
Proof.
  unfold get_country_data. simpl. intros Hdf.
  assert (Hsub : ∀ r, r ∈ df →
                      r ∈ default_columns <$> country_data (data_tables (_data self))).
  { destruct region as [region|]; [|by injection Hdf as <-].
    destruct (region_concordance (data_tables (_data self))) as [concordance|]; [|done].
    destruct (decide (region ∈ remove_dups (region_id <$> concordance))); [|done].
    injection Hdf as <-. intros r Hr. by apply list_elem_of_filter in Hr as [_ ?]. }
  split.
  - intros r (r0 & -> & Hr0)%Hsub%list_elem_of_fmap. split; [done|]. by exists r0.
  - intros ->. injection Hdf as <-. by rewrite length_fmap.
Qed.

Lemma get_country_data_default_columns_witness :
  (∀ r, r ∈ [CountryRow "FRA" "France" "IND1" "Literacy" 2020 "5" []] →
        metadata_columns r = []
        ∧ ∃ r0, r0 ∈ country_data (data_tables (_data example_facade))
                ∧ country_id r = country_id r0 ∧ country_name r = country_name r0
                ∧ indicator_id r = indicator_id r0
                ∧ indicator_label r = indicator_label r0
                ∧ year r = year r0 ∧ value r = value r0)
  ∧ ((None : option string) = None →
     length [CountryRow "FRA" "France" "IND1" "Literacy" 2020 "5" []]
     = length (country_data (data_tables (_data example_facade)))).
Proof.
  apply (get_country_data_default_columns example_facade None). reflexivity.
Defined.

(** X18: [get_country_data] filtered by a region succeeds exactly when
    [get_regions] succeeds and the region is one of the region ids of what it
    returns. *)
Theorem get_country_data_iff_get_regions (self : UIS) (include_metadata : bool)
    (region : string) :
  (∃ df, get_country_data self include_metadata (Some region) = Ok df)
  ↔ (∃ concordance, get_regions self = Ok concordance
                    ∧ region ∈ region_id <$> concordance).
Proof.
  unfold get_country_data, get_regions.
  destruct (region_concordance (data_tables (_data self))) as [concordance|].
  - destruct (decide (region ∈ remove_dups (region_id <$> concordance))) as [Hin|Hnot].
    + split; [|by eauto]. intros _. exists concordance. split; [done|].
      by apply elem_of_remove_dups.
    + split; [by intros [df ?]|]. intros (c & [= <-] & Hin).
      by apply elem_of_remove_dups in Hin.
  - split; [by intros [df ?]|]. by intros (c & ? & _).
Qed.

End CountryFacts.

(** ** The API wrapper, continued *)

Section RequestFacts.
Import Api Examples.
Variable server : nat → http_request → outcome.

Lemma dict_get_omap_None (key : string) (params : list (string * option param)) :
  key ∉ params.*1 →
  dict_get key (omap (fun kv => (fun v => (kv.1, v)) <$> kv.2) params) = None.
Proof.
  induction params as [|[k [v|]] params IH]; intros Hnot; [done| |].
  - rewrite fmap_cons, not_elem_of_cons in Hnot. destruct Hnot as [Hne Hnot].
    simpl. rewrite decide_False by done. by apply IH.
  - rewrite fmap_cons, not_elem_of_cons in Hnot. destruct Hnot as [_ Hnot].
    simpl. by apply IH.
Qed.

(** Of the parameters of [get_data], [version] is in the request exactly when
    it was given. *)
Lemma get_data_params_version (indicator geo_unit : option str_or_list)
    (start end_ : option Z) (indicator_metadata footnotes : bool)
    (geo_unit_type version : option string) :
  dict_get "version"
    (present (get_data_params indicator geo_unit start end_ indicator_metadata footnotes
                geo_unit_type version))
  = PStr <$> version.
Proof.
  unfold present.
  assert (merge_sort key_le
            (get_data_params indicator geo_unit start end_ indicator_metadata footnotes
               geo_unit_type version)
          = [("end", int_param end_);
             ("footnotes", str_param (_convert_bool_to_string (Some footnotes)));
             ("geoUnit", list_param geo_unit);
             ("geoUnitType", str_param geo_unit_type);
             ("indicator", list_param indicator);
             ("indicatorMetadata",
              str_param (_convert_bool_to_string (Some indicator_metadata)));
             ("start", int_param start)] ++ [("version", str_param version)])%list as ->.
  { reflexivity. }
  rewrite omap_app, get_app, dict_get_omap_None.
  - by destruct version.
  - apply (bool_decide_unpack _). vm_compute. exact I.
Qed.

(** A call of [get_data] that passes the three checks goes on to
    [_make_request], with at most a warning logged. *)
Lemma get_data_accepted (indicator geo_unit : option str_or_list) (start end_ : option Z)
    (indicator_metadata footnotes : bool) (geo_unit_type version : option string)
    (st : state) :
  indicator ≠ None ∨ geo_unit ≠ None →
  geo_unit_type = None ∨ geo_unit_type = Some "NATIONAL"
    ∨ geo_unit_type = Some "REGIONAL" →
  (∀ s e, start = Some s → end_ = Some e → s ≠ 0 → e ≠ 0 → s ≤ e) →
  ∃ w, get_data server indicator geo_unit start end_ indicator_metadata footnotes
         geo_unit_type version st
       = _make_request server "/api/public/data/indicators"
           (Some (get_data_params indicator geo_unit start end_ indicator_metadata
                    footnotes geo_unit_type version))
           (State (sent st) w).
Proof.
  intros Hgiven Htype Hyears. unfold get_data.
  assert (bool_decide (indicator = None) && bool_decide (geo_unit = None) = false) as ->.
  { destruct Hgiven as [H|H].
    - by rewrite (bool_decide_eq_false_2 _ H).
    - rewrite (bool_decide_eq_false_2 _ H). apply andb_false_r. }
  assert (_check_valid_geo_unit_type geo_unit_type = Ok ()) as Hcheck.
  { by destruct Htype as [->|[->| ->]]. }
  assert (truthy_int start && truthy_int end_ && gt start end_ = false) as Hcmp.
  { destruct start as [s|]; [|done]. destruct end_ as [e|]; [|apply andb_false_r].
    simpl. destruct (Z.eqb_spec s 0); [done|]. destruct (Z.eqb_spec e 0); [done|].
    simpl. specialize (Hyears s e eq_refl eq_refl). lia. }
  unfold mbind, M_bind, lift. rewrite Hcheck, Hcmp.
  destruct (truthy_str_or_list geo_unit && truthy_str geo_unit_type).
  - simpl. by eexists.
  - simpl. exists (warnings st). by destruct st.
Qed.

(** On the parameters of [get_data], [_make_request] checks the version when
    there is one and then sends. *)
Lemma _make_request_get_data (indicator geo_unit : option str_or_list)
    (start end_ : option Z) (indicator_metadata footnotes : bool)
    (geo_unit_type version : option string) (st : state) :
  _make_request server "/api/public/data/indicators"
    (Some (get_data_params indicator geo_unit start end_ indicator_metadata footnotes
             geo_unit_type version)) st
  = (_check_valid_version server version
       ≫= fun _ => send server "/api/public/data/indicators"
                     (Some (present (get_data_params indicator geo_unit start end_
                                       indicator_metadata footnotes geo_unit_type
                                       version)))) st.
Proof.
  unfold _make_request. rewrite get_data_params_version.
  by destruct version.
Qed.

(** X19: a call of [get_data] with neither indicator nor geo unit, with a
    geo unit type other than NATIONAL and REGIONAL, or with two years that are
    not 0 and a start after the end raises a [ValueError] and sends
    nothing. *)
Theorem get_data_rejects_before_traffic (indicator geo_unit : option str_or_list)
    (start end_ : option Z) (indicator_metadata footnotes : bool)
    (geo_unit_type version : option string) (st : state) :
  (indicator = None ∧ geo_unit = None)
  ∨ (∃ t, geo_unit_type = Some t ∧ t ≠ "NATIONAL" ∧ t ≠ "REGIONAL")
  ∨ (∃ s e, start = Some s ∧ end_ = Some e ∧ s ≠ 0 ∧ e ≠ 0 ∧ (s > e)) →
  ∃ msg st', get_data server indicator geo_unit start end_ indicator_metadata footnotes
               geo_unit_type version st
             = (Raise (ValueError msg), st')
             ∧ sent st' = sent st.
Proof.
  intros Hrejected. unfold get_data.
  destruct (bool_decide (indicator = None) && bool_decide (geo_unit = None)) eqn:Hnone.
  { by eexists _, _. }
  unfold mbind, M_bind, lift.
  assert (∃ w, (if truthy_str_or_list geo_unit && truthy_str geo_unit_type
                then logger_warning
                       "Both geo_unit and geo_unit_type are specified. geo_unit_type will be ignored"
                else mret ()) st = (Ok (), State (sent st) w)) as [w ->].
  { destruct (truthy_str_or_list geo_unit && truthy_str geo_unit_type).
    - by eexists.
    - exists (warnings st). by destruct st. }
  destruct (_check_valid_geo_unit_type geo_unit_type) as [[]|e] eqn:Hcheck.
  - destruct (truthy_int start && truthy_int end_ && gt start end_) eqn:Hcmp.
    { by eexists _, _. }
    exfalso. destruct Hrejected as [[-> ->]|[(t & -> & Hn & Hr)|(s & e & -> & -> & Hs & He & Hgt)]].
    + done.
    + simpl in Hcheck. rewrite decide_False in Hcheck; [done|].
      rewrite !elem_of_cons, elem_of_nil. tauto.
    + simpl in Hcmp. destruct (Z.eqb_spec s 0); [done|]. destruct (Z.eqb_spec e 0); [done|].
      simpl in Hcmp. lia.
  - unfold _check_valid_geo_unit_type in Hcheck.
    destruct geo_unit_type as [t|]; [|done].
    destruct (decide (t ∈ ["NATIONAL"; "REGIONAL"])); [done|].
    injection Hcheck as <-. by eexists _, _.
Qed.

(** X20: a call of [get_data] without a version that passes the checks sends
    exactly one request, to the indicator data endpoint, with the parameters
    that have a value. *)
Theorem get_data_sends_once (indicator geo_unit : option str_or_list)
    (start end_ : option Z) (indicator_metadata footnotes : bool)
    (geo_unit_type : option string) (st : state) :
  indicator ≠ None ∨ geo_unit ≠ None →
  geo_unit_type = None ∨ geo_unit_type = Some "NATIONAL"
    ∨ geo_unit_type = Some "REGIONAL" →
  (∀ s e, start = Some s → end_ = Some e → s ≠ 0 → e ≠ 0 → s ≤ e) →
  sent (get_data server indicator geo_unit start end_ indicator_metadata footnotes
          geo_unit_type None st).2
  = (sent st
     ++ [HttpRequest "https://api.uis.unesco.org/api/public/data/indicators"
           (Some (present (get_data_params indicator geo_unit start end_
                             indicator_metadata footnotes geo_unit_type None)))])%list.
Proof.
  intros Hgiven Htype Hyears.
  destruct (get_data_accepted indicator geo_unit start end_ indicator_metadata footnotes
              geo_unit_type None st Hgiven Htype Hyears) as [w ->].
  rewrite _make_request_get_data. unfold mbind, M_bind. simpl.
  apply (send_sent server "/api/public/data/indicators" _ (State (sent st) w)).
Qed.

(** X21: a call of [get_data] with a version that passes the checks first
    asks for the published versions; when the version is not among them it
    raises "Invalid data version" and the data request is never sent, and
    when it is among them the data request follows. *)
Theorem get_data_checks_version (indicator geo_unit : option str_or_list)
    (start end_ : option Z) (indicator_metadata footnotes : bool)
    (geo_unit_type : option string) (version : string) (st : state)
    (r : response) (versions : list string) :
  indicator ≠ None ∨ geo_unit ≠ None →
  geo_unit_type = None ∨ geo_unit_type = Some "NATIONAL"
    ∨ geo_unit_type = Some "REGIONAL" →
  (∀ s e, start = Some s → end_ = Some e → s ≠ 0 → e ≠ 0 → s ≤ e) →
  server (length (sent st))
         (HttpRequest "https://api.uis.unesco.org/api/public/versions" None)
  = Answer r →
  status_code r = 200 →
  body r = JVersions versions →
  let out := get_data server indicator geo_unit start end_ indicator_metadata footnotes
               geo_unit_type (Some version) st in
  (version ∉ versions →
   out.1 = Raise (ValueError ("Invalid data version: " ++ version))
   ∧ sent out.2
     = (sent st
        ++ [HttpRequest "https://api.uis.unesco.org/api/public/versions" None])%list)
  ∧ (version ∈ versions →
     sent out.2
     = (sent st
        ++ [HttpRequest "https://api.uis.unesco.org/api/public/versions" None;
            HttpRequest "https://api.uis.unesco.org/api/public/data/indicators"
              (Some (present (get_data_params indicator geo_unit start end_
                                indicator_metadata footnotes geo_unit_type
                                (Some version))))])%list).
Proof.
  intros Hgiven Htype Hyears Hserver Hstatus Hbody out. subst out.
  destruct (get_data_accepted indicator geo_unit start end_ indicator_metadata footnotes
              geo_unit_type (Some version) st Hgiven Htype Hyears) as [w ->].
  rewrite _make_request_get_data.
  assert (Hversions : get_versions server (State (sent st) w)
                      = (Ok (JVersions versions),
                         State (sent st ++ [HttpRequest (API_URL ++ "/api/public/versions")
                                              None]) w)).
  { unfold get_versions, send. simpl.
    change (API_URL ++ "/api/public/versions")
      with "https://api.uis.unesco.org/api/public/versions".
    rewrite Hserver.
    unfold _check_for_too_many_records, raise_for_status, response_json.
    rewrite Hstatus, Hbody. done. }
  unfold _check_valid_version, mbind, M_bind, lift. rewrite !Hversions. simpl.
  split.
  - intros Hnot. rewrite !decide_False by done. split; reflexivity.
  - intros Hin. rewrite !decide_True by done. simpl.
    rewrite (send_sent server "/api/public/data/indicators"). simpl.
    by rewrite <- app_assoc.
Qed.


End RequestFacts.

Section PresentFacts.
Import Api Examples.

#[local] Instance key_le_trans : Transitive key_le.
Proof. intros a b c. unfold key_le. apply transitivity. Qed.

#[local] Instance key_le_total : Total key_le.
Proof. intros a b. unfold key_le. apply total, _. Qed.

Lemma omap_sorted (params : list (string * option param)) :
  StronglySorted key_le params →
  StronglySorted String.le (omap (fun kv => (fun v => (kv.1, v)) <$> kv.2) params).*1.
Proof.
  induction 1 as [|[k v] params Hsorted IH Hall]; [constructor|].
  destruct v as [v|]; simpl; [|done].
  constructor; [done|].
  apply Forall_forall. intros k' Hk'.
  apply list_elem_of_fmap in Hk' as ([k'' v'] & -> & Hin).
  apply list_elem_of_omap in Hin as ([k3 v3] & Hin & Heq).
  destruct v3 as [v3|]; simplify_eq/=.
  rewrite Forall_forall in Hall. apply (Hall _ Hin).
Qed.

(** X23: the parameters that [_make_request] puts into a request are the
    given ones that have a value, those and no others, in ascending order of
    their names. *)
Theorem present_items_sorted (params : list (string * option param)) :
  (∀ k v, (k, v) ∈ present params ↔ (k, Some v) ∈ params)
  ∧ StronglySorted String.le (present params).*1.
Proof.
  unfold present. split.
  - intros k v. rewrite list_elem_of_omap. split.
    + intros ([k' [v'|]] & Hin & Heq); simplify_eq/=.
      by rewrite merge_sort_Permutation in Hin.
    + intros Hin. exists (k, Some v). split; [|done].
      by rewrite merge_sort_Permutation.
  - apply omap_sorted, (StronglySorted_merge_sort key_le).
Qed.

Lemma get_data_rejects_before_traffic_witness :
  ∃ msg st', get_data quiet_server (Some (Str "CR.1")) None (Some 2020) (Some 2010)
               false false None None (State [] [])
             = (Raise (ValueError msg), st')
             ∧ sent st' = [].
Proof.
  apply (get_data_rejects_before_traffic quiet_server (Some (Str "CR.1")) None
           (Some 2020) (Some 2010) false false None None (State [] [])).
  right. right. exists 2020, 2010. repeat split; lia.
Defined.

Lemma get_data_sends_once_witness :
  sent (get_data quiet_server (Some (Str "CR.1")) None (Some 2010) (Some 2020)
          false false None None (State [] [])).2
  = [HttpRequest "https://api.uis.unesco.org/api/public/data/indicators"
       (Some [("end", PInt 2020); ("footnotes", PStr "false");
              ("indicator", PList ["CR.1"]); ("indicatorMetadata", PStr "false");
              ("start", PInt 2010)])].
Proof.
  apply (get_data_sends_once quiet_server (Some (Str "CR.1")) None (Some 2010)
           (Some 2020) false false None (State [] [])).
  - left. discriminate.
  - left. reflexivity.
  - intros s e [= <-] [= <-] _ _. lia.
Defined.

Lemma get_data_checks_version_witness :
  let out := get_data versions_server (Some (Str "CR.1")) None None None false false
               None (Some "20240910-b5ad4d82") (State [] []) in
  ("20240910-b5ad4d82" ∉ ["20250225-b3e5b6c1"] →
   out.1 = Raise (ValueError "Invalid data version: 20240910-b5ad4d82")
   ∧ sent out.2 = [HttpRequest "https://api.uis.unesco.org/api/public/versions" None])
  ∧ ("20240910-b5ad4d82" ∈ ["20250225-b3e5b6c1"] →
     sent out.2
     = [HttpRequest "https://api.uis.unesco.org/api/public/versions" None;
        HttpRequest "https://api.uis.unesco.org/api/public/data/indicators"
          (Some (present (get_data_params (Some (Str "CR.1")) None None None false false
                            None (Some "20240910-b5ad4d82"))))]).
Proof.
  apply (get_data_checks_version versions_server (Some (Str "CR.1")) None None None
           false false None "20240910-b5ad4d82" (State [] [])
           (Response 200 "OK" "https://api.uis.unesco.org/api/public/versions"
              (JVersions ["20250225-b3e5b6c1"]))
           ["20250225-b3e5b6c1"]).
  - left. discriminate.
  - left. reflexivity.
  - intros s e [=].
  - reflexivity.
  - reflexivity.
  - reflexivity.
Defined.


Lemma get_country_data_iff_get_regions_witness :
  ∃ df, Uis.get_country_data example_facade false (Some "WB: Europe") = Ok df.
Proof.
  apply (get_country_data_iff_get_regions example_facade false "WB: Europe").
  exists [Uis.ConcordanceRow "WB: Europe" "FRA" "France"]. split; [reflexivity|].
  vm_compute. left.
Defined.

End PresentFacts.

Section EndpointFacts.
Import Api Examples.
Variable server : nat → http_request → outcome.

(** X24: without a version, [get_indicators] sends exactly one request, with
    its two switches written as "true" or "false" and nothing else, and
    [get_geo_units] sends exactly one request with no parameter at all;
    neither asks for the published versions. *)
Theorem endpoints_without_version (disaggregations glossary_terms : bool) (st : state) :
  sent (get_indicators server disaggregations glossary_terms None st).2
  = (sent st
     ++ [HttpRequest "https://api.uis.unesco.org/api/public/definitions/indicators"
           (Some [("disaggregations", PStr (if disaggregations then "true" else "false"));
                  ("glossaryTerms", PStr (if glossary_terms then "true" else "false"))])])%list
  ∧ sent (get_geo_units server None st).2
    = (sent st
       ++ [HttpRequest "https://api.uis.unesco.org/api/public/definitions/geounits"
             (Some [])])%list.
Proof.
  split.
  - unfold get_indicators.
    destruct disaggregations, glossary_terms;
      apply (send_sent server "/api/public/definitions/indicators").
  - apply (send_sent server "/api/public/definitions/geounits").
Qed.

End EndpointFacts.
